(** * DirectShowFrameGrabber: device selection, format negotiation,
      frame dispatch and frame processing

    A shallow embedding of [src/DirectShowFrameGrabber/DirectShowFrameGrabber.cpp]
    (Ubitrack, device_camera_directshow).  The functions below follow
    [DirectShowFrameGrabber::initGraph] (device enumeration loop and
    media-type loop), [DirectShowFrameGrabber::handleFrame] and
    [DirectShowFrameGrabber::SampleCB] statement by statement.

    Conventions.
    - [int], [long] and [LONG] are 32-bit two's complement (Win32/MSVC);
      they are carried as [Z] and every arithmetic result is passed
      through [wrap32].
    - [double] and [float] are IEEE 754 binary64 / binary32, carried as
      [spec_float]; [==] and [<] are [SFeqb] and [SFltb].
    - Calls into DirectShow, OpenCV and the Ubitrack libraries are assumed
      to return; what they return is either part of the input (the
      enumerated devices, the advertised capabilities, the media sample)
      or kept symbolic (images are provenance terms).  *)

From Stdlib Require Import ZArith List String Bool Lia.
From Stdlib Require Import SpecFloat.
Import ListNotations.

#[local] Open Scope Z_scope.

(* ------------------------------------------------------------------ *)
(** ** Machine integers *)

Definition INT_MIN : Z := - 2 ^ 31.
Definition INT_MAX : Z := 2 ^ 31 - 1.

(** Reduction of a mathematical integer to a 32-bit signed one. *)
Definition wrap32 (z : Z) : Z := (z + 2 ^ 31) mod 2 ^ 32 - 2 ^ 31.

(** Reduction to [unsigned long long]. *)
Definition wrap64u (z : Z) : Z := z mod 2 ^ 64.

Definition fits_int (z : Z) : Prop := INT_MIN <= z <= INT_MAX.

(** The C++ [%] on [int]: truncated remainder; a zero divisor and
    [INT_MIN % -1] trap (integer divide exception). *)
Definition c_rem (a b : Z) : option Z :=
  if (b =? 0) || ((a =? INT_MIN) && (b =? -1)) then None
  else Some (Z.rem a b).

(** [HRESULT]: a signed 32-bit code, negative on failure. *)
Definition HRESULT : Type := Z.
Definition S_OK : HRESULT := 0.
Definition E_FAIL : HRESULT := wrap32 0x80004005.
Definition FAILED (hr : HRESULT) : bool := hr <? 0.

(* ------------------------------------------------------------------ *)
(** ** Floating point *)

Definition double : Type := spec_float.
Definition float : Type := spec_float.

Definition double_eqb (a b : double) : bool := SFeqb a b.
Definition double_ltb (a b : double) : bool := SFltb a b.

(** Conversion of a 64-bit integer to [double]. *)
Definition double_of_Z (z : Z) : double := binary_normalize 53 1024 z 0 false.

Definition double_div (a b : double) : double := SFdiv 53 1024 a b.

(** Narrowing conversion [double] -> [float], round to nearest even. *)
Definition float_of_double (x : double) : float :=
  match x with
  | S754_finite s m e => binary_round 24 128 s m e
  | _ => x
  end.

Definition float_ltb (a b : float) : bool := SFltb a b.

(** The literal [-1e10], initial value of [m_lastTime]:
    1e10 = 5242880000000000 * 2^-19. *)
Definition minus_1e10 : double := S754_finite true 5242880000000000 (-19).

(** The literal [1e7]. *)
Definition d_1e7 : double := double_of_Z 10000000.

Definition is_nan (x : double) : bool :=
  match x with S754_nan => true | _ => false end.

(* ------------------------------------------------------------------ *)
(** ** C strings *)

(** [strstr( haystack, needle ) != NULL]. *)
Fixpoint strstr (haystack needle : string) : bool :=
  String.prefix needle haystack ||
  match haystack with
  | EmptyString => false
  | String _ rest => strstr rest needle
  end.

(** [std::string::empty]. *)
Definition empty (s : string) : bool :=
  match s with EmptyString => true | _ => false end.

(** Outcome of a routine that may [UBITRACK_THROW]. *)
Inductive Result (A : Type) : Type :=
| Ok (a : A)
| Throw (what : string).
Arguments Ok {A} a.
Arguments Throw {A} what.

(* ------------------------------------------------------------------ *)
(** ** Device Selector ([initGraph], the [pEnum->Next] loop) *)

Module DeviceSelector.

(** What one step of the enumerator delivers: the result of
    [BindToStorage]; the "DevicePath", "Description" and "FriendlyName"
    properties, [None] when their read fails; and what the storage of the
    local buffer [sDevicePath] holds when the iteration declares it.  The
    buffer is not initialised: it holds whatever the stack holds there, in
    practice the path converted in an earlier iteration. *)
Record IMoniker : Type := {
  BindToStorage : HRESULT;
  DevicePath : option string;
  uninitialized : string;
  Description : option string;
  FriendlyName : option string
}.

(** [char sDevicePath[ 128 ]; if ( SUCCEEDED( hr ) ) WideCharToMultiByte( ... );]:
    the buffer as the loop reads it afterwards, written only when the
    "DevicePath" property reads. *)
Definition sDevicePath (pMoniker : IMoniker) : string :=
  match DevicePath pMoniker with
  | Some path => path
  | None => uninitialized pMoniker
  end.

(** [hr = Read( L"Description" ); if FAILED( hr ) hr = Read( L"FriendlyName" )]:
    the converted [sName], when [SUCCEEDED( hr )]. *)
Definition sName (pMoniker : IMoniker) : option string :=
  match Description pMoniker with
  | Some s => Some s
  | None => FriendlyName pMoniker
  end.

Record Selection : Type := {
  pSelectedMoniker : option IMoniker;
  sSelectedCamera : string
}.

Definition no_selection : Selection :=
  {| pSelectedMoniker := None; sSelectedCamera := EmptyString |}.

(** [if ( !pSelectedMoniker ) pSelectedMoniker = pMoniker;] *)
Definition default_to (pMoniker : IMoniker) (sel : Selection) : Selection :=
  match pSelectedMoniker sel with
  | Some _ => sel
  | None => {| pSelectedMoniker := Some pMoniker;
               sSelectedCamera := sSelectedCamera sel |}
  end.

(** The [while ( pEnum->Next( ... ) == S_OK )] loop over the monikers the
    enumerator yields; returning without recursion is the [break]. *)
Fixpoint enumerate (m_desiredName m_desiredDevicePath : string)
    (pEnum : list IMoniker) (sel : Selection) : Selection :=
  match pEnum with
  | [] => sel
  | pMoniker :: rest =>
    let sel := default_to pMoniker sel in
    if FAILED (BindToStorage pMoniker) then
      enumerate m_desiredName m_desiredDevicePath rest sel
    else
      match sName pMoniker with
      | None => enumerate m_desiredName m_desiredDevicePath rest sel
      | Some name =>
        if negb (empty m_desiredName) && strstr name m_desiredName then
          if empty m_desiredDevicePath then
            {| pSelectedMoniker := Some pMoniker; sSelectedCamera := name |}
          else if strstr (sDevicePath pMoniker) m_desiredDevicePath then
            {| pSelectedMoniker := Some pMoniker; sSelectedCamera := name |}
          else enumerate m_desiredName m_desiredDevicePath rest sel
        else enumerate m_desiredName m_desiredDevicePath rest sel
      end
  end.

(** The loop followed by the check
    [if ( !pSelectedMoniker ) UBITRACK_THROW( "No video capture device found" )]. *)
Definition selectDevice (m_desiredName m_desiredDevicePath : string)
    (pEnum : list IMoniker) : Result (IMoniker * string) :=
  let sel := enumerate m_desiredName m_desiredDevicePath pEnum no_selection in
  match pSelectedMoniker sel with
  | None => Throw "No video capture device found"
  | Some m => Ok (m, sSelectedCamera sel)
  end.

(** The two calls before the loop, neither of which is tested afterwards:
    the result of creating the system device enumerator, and what
    [CreateClassEnumerator] stores in [pEnum] for the video input category:
    an enumerator with the monikers it yields, or a null pointer ([None])
    when the call fails or the category is empty. *)
Record SystemDeviceEnum : Type := {
  CoCreateInstance : HRESULT;
  CreateClassEnumerator : option (list IMoniker)
}.

(** [pEnum] when the loop is reached:
    [if ( SUCCEEDED( hr ) ) hr = pDevEnum->CreateClassEnumerator( ..., &pEnum.p, 0 )]. *)
Definition pEnum_of (sys : SystemDeviceEnum) : option (list IMoniker) :=
  if FAILED (CoCreateInstance sys) then None else CreateClassEnumerator sys.

(** The head of [initGraph] up to the selected device: [None] when
    [pEnum->Next] is called through a null pointer, which ends the program
    instead of the function. *)
Definition selectDevice_from (m_desiredName m_desiredDevicePath : string)
    (sys : SystemDeviceEnum) : option (Result (IMoniker * string)) :=
  match pEnum_of sys with
  | None => None
  | Some pEnum => Some (selectDevice m_desiredName m_desiredDevicePath pEnum)
  end.

(** The name logged as "Using camera" when [d] is selected by the loop body. *)
Definition cameraName (d : IMoniker) : string :=
  match sName d with Some name => name | None => EmptyString end.

(** A device the loop can inspect: its property bag binds and a name reads. *)
Definition usable (d : IMoniker) : bool :=
  negb (FAILED (BindToStorage d)) &&
  match sName d with Some _ => true | None => false end.

(** The name of the device contains the desired name. *)
Definition name_matches (m_desiredName : string) (d : IMoniker) : bool :=
  usable d &&
  match sName d with
  | Some name => strstr name m_desiredName
  | None => false
  end.

(** The condition under which the loop body selects [d] and breaks. *)
Definition matches (m_desiredName m_desiredDevicePath : string)
    (d : IMoniker) : bool :=
  negb (empty m_desiredName) && name_matches m_desiredName d &&
  (empty m_desiredDevicePath || strstr (sDevicePath d) m_desiredDevicePath).

End DeviceSelector.

(* ------------------------------------------------------------------ *)
(** ** Capture Pipeline Builder ([initGraph], the [GetStreamCaps] loop) *)

Module FormatNegotiation.

Inductive GUID : Type :=
| MEDIATYPE_Video | MEDIATYPE_Audio
| MEDIASUBTYPE_RGB24 | MEDIASUBTYPE_RGB32 | MEDIASUBTYPE_YUY2 | MEDIASUBTYPE_MJPG
| FORMAT_VideoInfo | FORMAT_VideoInfo2
| GUID_NULL.

Definition GUID_eq_dec (a b : GUID) : {a = b} + {a <> b}.
Proof. decide equality. Defined.

Definition GUID_eqb (a b : GUID) : bool :=
  if GUID_eq_dec a b then true else false.

(** The fields of [VIDEOINFOHEADER] the loop reads. *)
Record VIDEOINFOHEADER : Type := {
  AvgTimePerFrame : Z;   (* REFERENCE_TIME, 100 ns units *)
  biWidth : Z;
  biHeight : Z
}.

Record AM_MEDIA_TYPE : Type := {
  majortype : GUID;
  subtype : GUID;
  formattype : GUID;
  pbFormat : VIDEOINFOHEADER
}.

(** [1e7 / pInfo->AvgTimePerFrame], computed in [double], stored in a [float]. *)
Definition fps_of (pInfo : VIDEOINFOHEADER) : float :=
  float_of_double (double_div d_1e7 (double_of_Z (AvgTimePerFrame pInfo))).

(** The size part of the selection condition. *)
Definition size_matches (m_desiredWidth m_desiredHeight : Z)
    (pInfo : VIDEOINFOHEADER) : bool :=
  ((m_desiredWidth <=? 0) || (biWidth pInfo =? m_desiredWidth)) &&
  ((m_desiredHeight <=? 0) || (biHeight pInfo =? m_desiredHeight)).

(** Loop state: the argument of the latest [SetFormat] call and
    [fCurrentFps]. *)
Record NegState : Type := {
  currentFormat : option AM_MEDIA_TYPE;
  fCurrentFps : float
}.

Definition neg_init : NegState :=
  {| currentFormat := None; fCurrentFps := S754_zero false |}.

(** One iteration of [for ( iCap = 0; iCap < iCount; iCap++ )]. *)
Definition neg_step (m_desiredWidth m_desiredHeight : Z)
    (st : NegState) (pMediaType : AM_MEDIA_TYPE) : NegState :=
  if negb (GUID_eqb (majortype pMediaType) MEDIATYPE_Video) ||
     negb (GUID_eqb (formattype pMediaType) FORMAT_VideoInfo)
  then st
  else
    let pInfo := pbFormat pMediaType in
    let fMediaTypeFps := fps_of pInfo in
    if size_matches m_desiredWidth m_desiredHeight pInfo &&
       (GUID_eqb (subtype pMediaType) MEDIASUBTYPE_RGB24 ||
        float_ltb (fCurrentFps st) fMediaTypeFps)
    then {| currentFormat := Some pMediaType; fCurrentFps := fps_of pInfo |}
    else st.

(** The whole loop over the advertised capabilities. *)
Definition negotiate (m_desiredWidth m_desiredHeight : Z)
    (caps : list AM_MEDIA_TYPE) : NegState :=
  fold_left (neg_step m_desiredWidth m_desiredHeight) caps neg_init.

(** The format in force after the loop. *)
Definition selectedFormat (m_desiredWidth m_desiredHeight : Z)
    (caps : list AM_MEDIA_TYPE) : option AM_MEDIA_TYPE :=
  currentFormat (negotiate m_desiredWidth m_desiredHeight caps).

(** The earlier variant of the same loop, kept in the repository beside the
    interface definitions: [bSet] records that a format was set, only an
    RGB24 capability may replace it, and the loop then breaks. *)
Fixpoint negotiate_legacy (m_desiredWidth m_desiredHeight : Z)
    (caps : list AM_MEDIA_TYPE) (bSet : bool)
    (current : option AM_MEDIA_TYPE) : option AM_MEDIA_TYPE :=
  match caps with
  | [] => current
  | pMediaType :: rest =>
    if negb (GUID_eqb (majortype pMediaType) MEDIATYPE_Video) ||
       negb (GUID_eqb (formattype pMediaType) FORMAT_VideoInfo)
    then negotiate_legacy m_desiredWidth m_desiredHeight rest bSet current
    else if size_matches m_desiredWidth m_desiredHeight (pbFormat pMediaType) &&
            (negb bSet || GUID_eqb (subtype pMediaType) MEDIASUBTYPE_RGB24)
    then if bSet then Some pMediaType
         else negotiate_legacy m_desiredWidth m_desiredHeight rest true
                (Some pMediaType)
    else negotiate_legacy m_desiredWidth m_desiredHeight rest bSet current
  end.

(** A capability the loop considers at all: video, with a [VIDEOINFOHEADER],
    of the desired size. *)
Definition eligible (m_desiredWidth m_desiredHeight : Z)
    (pMediaType : AM_MEDIA_TYPE) : bool :=
  GUID_eqb (majortype pMediaType) MEDIATYPE_Video &&
  GUID_eqb (formattype pMediaType) FORMAT_VideoInfo &&
  size_matches m_desiredWidth m_desiredHeight (pbFormat pMediaType).

End FormatNegotiation.

(* ------------------------------------------------------------------ *)
(** ** Frame Processor and Frame Dispatcher *)

(** [Measurement::Timestamp]: [unsigned long long], nanoseconds. *)
Definition Timestamp : Type := Z.

(** [IMediaSample], as far as [SampleCB] uses it: the buffer size reported
    by [GetSize], the [HRESULT] of [GetPointer] and the address it
    stores in [pBuffer]. *)
Record IMediaSample : Type := {
  GetSize : Z;
  GetPointer : HRESULT;
  pBuffer : Z
}.

Inductive ImageFormat : Type := LUMINANCE | RGB | BGR.

(** [Vision::Image::ImageFormatProperties], the fields set here. *)
Record ImageFormatProperties : Type := {
  imageFormat : ImageFormat;
  channels : Z;
  bitsPerPixel : Z;
  origin : Z
}.

Inductive ImageUploadState : Type := OnCPU | OnGPU | OnCPUGPU.

Inductive ColorConversion : Type := CV_BGR2GRAY | COLOR_RGB2GRAY.

Section Types.

(** The state of the timestamp synchronizer ([Measurement::TimestampSync])
    and the undistortion model ([Vision::Undistortion]) belong to libraries
    outside this repository. *)
Variable TimestampSync : Type.
Variable Undistortion : Type.

(** Images are kept as the history of library calls that produced them. *)
Inductive Image : Type :=
| BufferImage (w h : Z) (fmt : ImageFormatProperties) (buffer : Z)
    (* Vision::Image( w, h, fmt, pBuffer ) *)
| UMat (src : Image)
    (* the image after uMat() *)
| Resize (w h : Z) (src : Image)
    (* cv::resize into a new Image( w, h, fmt ) *)
| Undistort (u : Undistortion) (src : Image)
    (* m_undistorter->undistort( src ) *)
| CvtColor (code : ColorConversion) (src : Image)
| Clone (src : Image).

(** The size of an image; undistortion, colour conversion and cloning keep it. *)
Fixpoint width (i : Image) : Z :=
  match i with
  | BufferImage w _ _ _ => w
  | Resize w _ _ => w
  | UMat s | Undistort _ s | CvtColor _ s | Clone s => width s
  end.

Fixpoint height (i : Image) : Z :=
  match i with
  | BufferImage _ h _ _ => h
  | Resize _ h _ => h
  | UMat s | Undistort _ s | CvtColor _ s | Clone s => height s
  end.

(** How many times undistortion was applied on the way to an image. *)
Fixpoint undistortions (i : Image) : nat :=
  match i with
  | BufferImage _ _ _ _ => O
  | Undistort _ s => S (undistortions s)
  | UMat s | Resize _ _ s | CvtColor _ s | Clone s => undistortions s
  end.

(** How many times an image was resized on the way. *)
Fixpoint resizes (i : Image) : nat :=
  match i with
  | BufferImage _ _ _ _ => O
  | Resize _ _ s => S (resizes s)
  | UMat s | Undistort _ s | CvtColor _ s | Clone s => resizes s
  end.

(** The members of the component that the two routines read or write,
    with [m_running] of the [Dataflow::Component] base class. *)
Record DirectShowFrameGrabber : Type := {
  m_sampleWidth : Z;
  m_sampleHeight : Z;
  m_timeOffset : Z;
  m_divisor : Z;
  m_desiredWidth : Z;
  m_desiredHeight : Z;
  m_nFrames : Z;
  m_lastTime : double;
  m_autoGPUUpload : bool;
  m_syncer : TimestampSync;
  m_undistorter : Undistortion;
  m_running : bool
}.

Definition set_lastTime (t : double) (c : DirectShowFrameGrabber) :=
  {| m_sampleWidth := m_sampleWidth c; m_sampleHeight := m_sampleHeight c;
     m_timeOffset := m_timeOffset c; m_divisor := m_divisor c;
     m_desiredWidth := m_desiredWidth c; m_desiredHeight := m_desiredHeight c;
     m_nFrames := m_nFrames c; m_lastTime := t;
     m_autoGPUUpload := m_autoGPUUpload c; m_syncer := m_syncer c;
     m_undistorter := m_undistorter c; m_running := m_running c |}.

Definition set_nFrames (n : Z) (c : DirectShowFrameGrabber) :=
  {| m_sampleWidth := m_sampleWidth c; m_sampleHeight := m_sampleHeight c;
     m_timeOffset := m_timeOffset c; m_divisor := m_divisor c;
     m_desiredWidth := m_desiredWidth c; m_desiredHeight := m_desiredHeight c;
     m_nFrames := n; m_lastTime := m_lastTime c;
     m_autoGPUUpload := m_autoGPUUpload c; m_syncer := m_syncer c;
     m_undistorter := m_undistorter c; m_running := m_running c |}.

Definition set_syncer (s : TimestampSync) (c : DirectShowFrameGrabber) :=
  {| m_sampleWidth := m_sampleWidth c; m_sampleHeight := m_sampleHeight c;
     m_timeOffset := m_timeOffset c; m_divisor := m_divisor c;
     m_desiredWidth := m_desiredWidth c; m_desiredHeight := m_desiredHeight c;
     m_nFrames := m_nFrames c; m_lastTime := m_lastTime c;
     m_autoGPUUpload := m_autoGPUUpload c; m_syncer := s;
     m_undistorter := m_undistorter c; m_running := m_running c |}.

Definition set_running (b : bool) (c : DirectShowFrameGrabber) :=
  {| m_sampleWidth := m_sampleWidth c; m_sampleHeight := m_sampleHeight c;
     m_timeOffset := m_timeOffset c; m_divisor := m_divisor c;
     m_desiredWidth := m_desiredWidth c; m_desiredHeight := m_desiredHeight c;
     m_nFrames := m_nFrames c; m_lastTime := m_lastTime c;
     m_autoGPUUpload := m_autoGPUUpload c; m_syncer := m_syncer c;
     m_undistorter := m_undistorter c; m_running := b |}.

(** What the host reports when a frame is processed: which push ports
    have a consumer and whether the OpenCL manager is initialized. *)
Record Host : Type := {
  outPort_isConnected : bool;
  colorOutPort_isConnected : bool;
  outPortRAW_isConnected : bool;
  oclManager_isInitialized : bool
}.

(** The measurements a call of [handleFrame] pushes, in order. *)
Record Sent : Type := {
  sentRAW : option (Timestamp * Image);
  sentColor : option (Timestamp * Image);
  sentOut : option (Timestamp * Image)
}.

(** [if ( m_autoGPUUpload ) if ( oclManager.isInitialized() ) bufferImage.uMat();]:
    the buffer image as the rest of [handleFrame] sees it. *)
Definition uploaded (c : DirectShowFrameGrabber) (host : Host) (img : Image) :=
  if m_autoGPUUpload c && oclManager_isInitialized host then UMat img else img.

Inductive LogLine : Type :=
| SampleCB_called | Got_double_frame | Invalid_sample_size | GetPointer_failed.

(** What one call of [SampleCB] does: the value returned, the component
    afterwards, the lines logged, and, when [handleFrame] was called, its
    arguments and what it pushed. *)
Record Dispatched : Type := {
  returned : HRESULT;
  after : DirectShowFrameGrabber;
  logged : list LogLine;
  forwarded : option (Timestamp * Image);
  pushed : option Sent
}.

Definition dropped (c : DirectShowFrameGrabber) (log : list LogLine) : Dispatched :=
  {| returned := S_OK; after := c; logged := log;
     forwarded := None; pushed := None |}.

(** The format [SampleCB] gives the buffer image. *)
Definition bgr24 : ImageFormatProperties :=
  {| imageFormat := BGR; channels := 3; bitsPerPixel := 24; origin := 1 |}.

(** [m_sampleWidth * m_sampleHeight * 3] in [LONG] arithmetic. *)
Definition required_size (c : DirectShowFrameGrabber) : Z :=
  wrap32 (wrap32 (m_sampleWidth c * m_sampleHeight c) * 3).

(** One invocation of the callback by the capture subsystem. *)
Record Invocation : Type := {
  inv_host : Host;
  inv_Time : double;
  inv_sample : IMediaSample
}.

Definition is_forwarded (d : Dispatched) : bool :=
  match forwarded d with Some _ => true | None => false end.

(** The sample passes the size check and its pointer can be acquired. *)
Definition sample_ok (c : DirectShowFrameGrabber) (s : IMediaSample) : bool :=
  negb (GetSize s <? required_size c) && negb (FAILED (GetPointer s)).

(** Native timestamps strictly increasing along a list. *)
Fixpoint increasing_from (t0 : double) (ts : list double) : bool :=
  match ts with
  | [] => true
  | t :: rest => double_ltb t0 t && increasing_from t rest
  end.

(** The component once the counter has been advanced for a fresh frame. *)
Definition counted (Time : double) (c : DirectShowFrameGrabber) :=
  set_nFrames (wrap32 (m_nFrames c + 1)) (set_lastTime Time c).

(** The component as the constructor leaves the members it initializes
    ([m_running] is false until [start]). *)
Definition constructed (w h : Z) (syncer : TimestampSync) (u : Undistortion)
    : DirectShowFrameGrabber :=
  {| m_sampleWidth := w; m_sampleHeight := h;
     m_timeOffset := 0; m_divisor := 1;
     m_desiredWidth := 320; m_desiredHeight := 240;
     m_nFrames := 0; m_lastTime := minus_1e10;
     m_autoGPUUpload := false; m_syncer := syncer;
     m_undistorter := u; m_running := false |}.

End Types.

(** The two type parameters are inferred from here on. *)

Arguments m_sampleWidth {TimestampSync Undistortion}.
Arguments m_sampleHeight {TimestampSync Undistortion}.
Arguments m_timeOffset {TimestampSync Undistortion}.
Arguments m_divisor {TimestampSync Undistortion}.
Arguments m_desiredWidth {TimestampSync Undistortion}.
Arguments m_desiredHeight {TimestampSync Undistortion}.
Arguments m_nFrames {TimestampSync Undistortion}.
Arguments m_lastTime {TimestampSync Undistortion}.
Arguments m_autoGPUUpload {TimestampSync Undistortion}.
Arguments m_syncer {TimestampSync Undistortion}.
Arguments m_undistorter {TimestampSync Undistortion}.
Arguments m_running {TimestampSync Undistortion}.
Arguments set_lastTime {TimestampSync Undistortion}.
Arguments set_nFrames {TimestampSync Undistortion}.
Arguments set_syncer {TimestampSync Undistortion}.
Arguments set_running {TimestampSync Undistortion}.
Arguments returned {TimestampSync Undistortion}.
Arguments after {TimestampSync Undistortion}.
Arguments logged {TimestampSync Undistortion}.
Arguments forwarded {TimestampSync Undistortion}.
Arguments pushed {TimestampSync Undistortion}.
Arguments dropped {TimestampSync Undistortion}.
Arguments required_size {TimestampSync Undistortion}.
Arguments is_forwarded {TimestampSync Undistortion}.
Arguments sample_ok {TimestampSync Undistortion}.
Arguments counted {TimestampSync Undistortion}.
Arguments constructed {TimestampSync Undistortion} w h syncer u.
Arguments uploaded {TimestampSync Undistortion}.
Arguments BufferImage {Undistortion}.
Arguments UMat {Undistortion}.
Arguments Resize {Undistortion}.
Arguments Undistort {Undistortion}.
Arguments CvtColor {Undistortion}.
Arguments Clone {Undistortion}.
Arguments width {Undistortion}.
Arguments height {Undistortion}.
Arguments undistortions {Undistortion}.
Arguments resizes {Undistortion}.
Arguments sentRAW {Undistortion}.
Arguments sentColor {Undistortion}.
Arguments sentOut {Undistortion}.

(** What the collaborators compute: the synchronizer's conversion of a
    native time, with its new state, and the upload state the vision
    library reports for an image. *)
Class Collaborators (TimestampSync Undistortion : Type) : Type := {
  convertNativeToLocal : TimestampSync -> double -> Timestamp * TimestampSync;
  getImageState : Image Undistortion -> ImageUploadState
}.

Section Dispatch.

Context {TimestampSync Undistortion : Type}
  `{!Collaborators TimestampSync Undistortion}.

Implicit Types (c : DirectShowFrameGrabber TimestampSync Undistortion)
  (host : Host) (Time : double) (pSample : IMediaSample).

Definition on_gpu (i : Image Undistortion) : bool :=
  match getImageState i with
  | OnCPUGPU | OnGPU => true
  | OnCPU => false
  end.

(** The single-channel image of [src], by the branch the upload state takes. *)
Definition toGrey (src : Image Undistortion) : Image Undistortion :=
  if on_gpu src then CvtColor COLOR_RGB2GRAY (UMat src)
  else CvtColor CV_BGR2GRAY src.

(** [DirectShowFrameGrabber::handleFrame]. *)
Definition handleFrame c host (utTime : Timestamp)
    (bufferImage : Image Undistortion) : Sent Undistortion :=
  let bufferImage := uploaded c host bufferImage in
  (* boost::shared_ptr< Vision::Image > pColorImage; bool bColorImageDistorted = true; *)
  let pColorImage : option (Image Undistortion) :=
    if ((0 <? m_desiredWidth c) && (0 <? m_desiredHeight c)) &&
       ((m_desiredWidth c <? width bufferImage) ||
        (m_desiredHeight c <? height bufferImage))
    then Some (Resize (m_desiredWidth c) (m_desiredHeight c) bufferImage)
    else None in
  let raw :=
    if outPortRAW_isConnected host
    then Some (utTime, Clone bufferImage) else None in
  let '(pColorImage, bColorImageDistorted, color) :=
    if colorOutPort_isConnected host then
      let img :=
        match pColorImage with
        | Some p => Undistort (m_undistorter c) p
        | None => Undistort (m_undistorter c) bufferImage
        end in
      (Some img, false, Some (utTime, img))
    else (pColorImage, true, None) in
  let out :=
    if outPort_isConnected host then
      let pGreyImage :=
        match pColorImage with
        | Some p => toGrey p
        | None => toGrey bufferImage
        end in
      let pGreyImage :=
        if bColorImageDistorted
        then Undistort (m_undistorter c) pGreyImage else pGreyImage in
      Some (utTime, pGreyImage)
    else None in
  {| sentRAW := raw; sentColor := color; sentOut := out |}.

(** [DirectShowFrameGrabber::SampleCB]; [None] when the remainder traps. *)
Definition SampleCB c host Time pSample
    : option (Dispatched TimestampSync Undistortion) :=
  if double_eqb Time (m_lastTime c) then
    Some (dropped c [SampleCB_called; Got_double_frame])
  else
    let c := set_lastTime Time c in
    if negb (m_running c) then Some (dropped c [SampleCB_called])
    else
      (* ++m_nFrames % m_divisor *)
      let c := set_nFrames (wrap32 (m_nFrames c + 1)) c in
      match c_rem (m_nFrames c) (m_divisor c) with
      | None => None
      | Some r =>
        if negb (r =? 0) then Some (dropped c [SampleCB_called])
        else if GetSize pSample <? required_size c then
          Some (dropped c [SampleCB_called; Invalid_sample_size])
        else if FAILED (GetPointer pSample) then
          Some (dropped c [SampleCB_called; GetPointer_failed])
        else
          let bufferImage :=
            BufferImage (m_sampleWidth c) (m_sampleHeight c) bgr24 (pBuffer pSample) in
          let '(utTime, syncer) := convertNativeToLocal (m_syncer c) Time in
          let c := set_syncer syncer c in
          let t := wrap64u (utTime + wrap32 (1000000 * m_timeOffset c)) in
          Some {| returned := S_OK; after := c; logged := [SampleCB_called];
                  forwarded := Some (t, bufferImage);
                  pushed := Some (handleFrame c host t bufferImage) |}
      end.

(** The callback invoked serially on a sequence of samples. *)
Fixpoint deliver c (invs : list Invocation)
    : option (list (Dispatched TimestampSync Undistortion)
              * DirectShowFrameGrabber TimestampSync Undistortion) :=
  match invs with
  | [] => Some ([], c)
  | i :: rest =>
    match SampleCB c (inv_host i) (inv_Time i) (inv_sample i) with
    | None => None
    | Some d =>
      match deliver (after d) rest with
      | None => None
      | Some (ds, c') => Some (d :: ds, c')
      end
    end
  end.

(** The frame [SampleCB] builds and the time it stamps it with. *)
Definition stamped Time c : Timestamp :=
  wrap64u (fst (convertNativeToLocal (m_syncer c) Time)
           + wrap32 (1000000 * m_timeOffset c)).

Definition synced Time c :=
  set_syncer (snd (convertNativeToLocal (m_syncer c) Time)) (counted Time c).

(** Every way a call can end, in the order the code tests them. *)
Inductive SampleCB_case c host Time pSample
    : option (Dispatched TimestampSync Undistortion) -> Prop :=
| case_duplicate :
    double_eqb Time (m_lastTime c) = true ->
    SampleCB_case c host Time pSample
      (Some (dropped c [SampleCB_called; Got_double_frame]))
| case_not_running :
    double_eqb Time (m_lastTime c) = false -> m_running c = false ->
    SampleCB_case c host Time pSample
      (Some (dropped (set_lastTime Time c) [SampleCB_called]))
| case_trap :
    double_eqb Time (m_lastTime c) = false -> m_running c = true ->
    c_rem (wrap32 (m_nFrames c + 1)) (m_divisor c) = None ->
    SampleCB_case c host Time pSample None
| case_skipped r :
    double_eqb Time (m_lastTime c) = false -> m_running c = true ->
    c_rem (wrap32 (m_nFrames c + 1)) (m_divisor c) = Some r -> r <> 0 ->
    SampleCB_case c host Time pSample
      (Some (dropped (counted Time c) [SampleCB_called]))
| case_undersized :
    double_eqb Time (m_lastTime c) = false -> m_running c = true ->
    c_rem (wrap32 (m_nFrames c + 1)) (m_divisor c) = Some 0 ->
    GetSize pSample < required_size c ->
    SampleCB_case c host Time pSample
      (Some (dropped (counted Time c) [SampleCB_called; Invalid_sample_size]))
| case_no_pointer :
    double_eqb Time (m_lastTime c) = false -> m_running c = true ->
    c_rem (wrap32 (m_nFrames c + 1)) (m_divisor c) = Some 0 ->
    required_size c <= GetSize pSample ->
    FAILED (GetPointer pSample) = true ->
    SampleCB_case c host Time pSample
      (Some (dropped (counted Time c) [SampleCB_called; GetPointer_failed]))
| case_forwarded :
    double_eqb Time (m_lastTime c) = false -> m_running c = true ->
    c_rem (wrap32 (m_nFrames c + 1)) (m_divisor c) = Some 0 ->
    sample_ok c pSample = true ->
    SampleCB_case c host Time pSample
      (Some {| returned := S_OK; after := synced Time c;
               logged := [SampleCB_called];
               forwarded :=
                 Some (stamped Time c,
                       BufferImage (m_sampleWidth c) (m_sampleHeight c) bgr24
                         (pBuffer pSample));
               pushed :=
                 Some (handleFrame (synced Time c) host (stamped Time c)
                         (BufferImage (m_sampleWidth c) (m_sampleHeight c) bgr24
                            (pBuffer pSample))) |}).

End Dispatch.

(* ------------------------------------------------------------------ *)
(** ** The dispatcher over a sequence of callbacks *)

(** The members [SampleCB] only reads agree in two components. *)
Definition same_configuration {TimestampSync Undistortion : Type}
    (c c' : DirectShowFrameGrabber TimestampSync Undistortion) : Prop :=
  m_sampleWidth c' = m_sampleWidth c /\
  m_sampleHeight c' = m_sampleHeight c /\
  m_timeOffset c' = m_timeOffset c /\
  m_divisor c' = m_divisor c /\
  m_desiredWidth c' = m_desiredWidth c /\
  m_desiredHeight c' = m_desiredHeight c /\
  m_autoGPUUpload c' = m_autoGPUUpload c /\
  m_undistorter c' = m_undistorter c /\
  m_running c' = m_running c.

(** How many timestamps of a sequence differ from the one delivered just
    before them, starting after [last]. *)
Fixpoint fresh_frames (last : double) (ts : list double) : nat :=
  match ts with
  | [] => O
  | t :: rest =>
    if double_eqb t last then fresh_frames last rest
    else S (fresh_frames t rest)
  end.

(** The native times of the invocations whose frame was forwarded. *)
Definition forwarded_times {TimestampSync Undistortion : Type}
    (invs : list Invocation)
    (ds : list (Dispatched TimestampSync Undistortion)) : list double :=
  map (fun p => inv_Time (fst p))
      (filter (fun p => is_forwarded (snd p)) (combine invs ds)).

(** The synchronizer after it has converted the native times [ts] in turn. *)
Definition fed {TimestampSync Undistortion : Type}
    `{!Collaborators TimestampSync Undistortion}
    (s : TimestampSync) (ts : list double) : TimestampSync :=
  fold_left (fun s t => snd (convertNativeToLocal s t)) ts s.

(* ------------------------------------------------------------------ *)
(** ** Intrinsics and what the Frame Processor pushes *)

Definition set_undistorter {TimestampSync Undistortion : Type}
    (u : Undistortion) (c : DirectShowFrameGrabber TimestampSync Undistortion) :=
  {| m_sampleWidth := m_sampleWidth c; m_sampleHeight := m_sampleHeight c;
     m_timeOffset := m_timeOffset c; m_divisor := m_divisor c;
     m_desiredWidth := m_desiredWidth c; m_desiredHeight := m_desiredHeight c;
     m_nFrames := m_nFrames c; m_lastTime := m_lastTime c;
     m_autoGPUUpload := m_autoGPUUpload c; m_syncer := m_syncer c;
     m_undistorter := u; m_running := m_running c |}.

(** [DirectShowFrameGrabber::newIntrinsicsPush]:
    [m_undistorter.reset( new Vision::Undistortion( *intrinsics ) )], with
    [u] the model built from the pushed intrinsics. *)
Definition newIntrinsicsPush {TimestampSync Undistortion : Type}
    (u : Undistortion) (c : DirectShowFrameGrabber TimestampSync Undistortion) :=
  set_undistorter u c.

(** [DirectShowFrameGrabber::getIntrinsic]:
    [Measurement::Matrix3x3( t, m_undistorter->getMatrix() )]. *)
Definition getIntrinsic {TimestampSync Undistortion Matrix : Type}
    (getMatrix : Undistortion -> Matrix)
    (c : DirectShowFrameGrabber TimestampSync Undistortion) (t : Timestamp)
    : Timestamp * Matrix :=
  (t, getMatrix (m_undistorter c)).

(** The undistortion models applied on the way to an image, latest first. *)
Fixpoint undistorters {Undistortion : Type} (i : Image Undistortion)
    : list Undistortion :=
  match i with
  | BufferImage _ _ _ _ => []
  | Undistort u s => u :: undistorters s
  | UMat s | Resize _ _ s | CvtColor _ s | Clone s => undistorters s
  end.

(** The image is the product of a library call that allocates its result,
    not the frame wrapped around the capture buffer or a view of it. *)
Definition allocated {Undistortion : Type} (i : Image Undistortion) : bool :=
  match i with
  | BufferImage _ _ _ _ | UMat _ => false
  | Resize _ _ _ | Undistort _ _ | CvtColor _ _ | Clone _ => true
  end.

(** The images a call of [handleFrame] pushed, in the order of the sends. *)
Definition images {Undistortion : Type} (s : Sent Undistortion)
    : list (Image Undistortion) :=
  let image (m : option (Timestamp * Image Undistortion)) :=
    match m with Some (_, i) => [i] | None => [] end in
  image (sentRAW s) ++ image (sentColor s) ++ image (sentOut s).

(** The timestamps of the measurements a call of [handleFrame] pushed. *)
Definition stamps {Undistortion : Type} (s : Sent Undistortion)
    : list Timestamp :=
  let stamp (m : option (Timestamp * Image Undistortion)) :=
    match m with Some (t, _) => [t] | None => [] end in
  stamp (sentRAW s) ++ stamp (sentColor s) ++ stamp (sentOut s).

(** The test that makes [handleFrame] resize. *)
Definition larger_than_desired {TimestampSync Undistortion : Type}
    (c : DirectShowFrameGrabber TimestampSync Undistortion)
    (img : Image Undistortion) : bool :=
  ((0 <? m_desiredWidth c) && (0 <? m_desiredHeight c)) &&
  ((m_desiredWidth c <? width img) || (m_desiredHeight c <? height img)).

(** Every image pushed during a delivery. *)
Definition all_pushed {TimestampSync Undistortion : Type}
    (ds : list (Dispatched TimestampSync Undistortion))
    : list (Image Undistortion) :=
  flat_map (fun d => match pushed d with Some s => images s | None => [] end) ds.

(* ------------------------------------------------------------------ *)
(** ** The order of floats *)

(** A key that orders the floats as [<] does: the sign class first, then the
    exponent and the mantissa, both negated below zero. *)
Definition float_key (x : spec_float) : Z * Z * Z :=
  match x with
  | S754_nan => (0, 0, 0)
  | S754_zero _ => (0, 0, 0)
  | S754_infinity true => (-2, 0, 0)
  | S754_infinity false => (2, 0, 0)
  | S754_finite false m e => (1, e, Zpos m)
  | S754_finite true m e => (-1, - e, Zneg m)
  end.

(** The lexicographic order on the keys. *)
Definition key_lt (p q : Z * Z * Z) : Prop :=
  fst (fst p) < fst (fst q) \/
  (fst (fst p) = fst (fst q) /\
   (snd (fst p) < snd (fst q) \/
    (snd (fst p) = snd (fst q) /\ snd p < snd q))).

(* ------------------------------------------------------------------ *)
(** ** The format negotiation loop from any state *)

Module NegotiationLoop.
Import FormatNegotiation.

Definition is_RGB24 (m : AM_MEDIA_TYPE) : bool :=
  GUID_eqb (subtype m) MEDIASUBTYPE_RGB24.

(** The loop continued from the state [st] over the capabilities [caps]. *)
Definition run (dw dh : Z) (st : NegState) (caps : list AM_MEDIA_TYPE)
    : NegState :=
  fold_left (neg_step dw dh) caps st.

(** The frame rate the loop compares against belongs to the format set. *)
Definition coherent (st : NegState) : Prop :=
  match currentFormat st with
  | Some s => fCurrentFps st = fps_of (pbFormat s)
  | None => fCurrentFps st = S754_zero false
  end.

(** An RGB24 capability of the desired size. *)
Definition wanted (dw dh : Z) (m : AM_MEDIA_TYPE) : bool :=
  eligible dw dh m && is_RGB24 m.

End NegotiationLoop.

(* ------------------------------------------------------------------ *)
(** ** Building the capture graph ([initGraph] as a whole) *)

Definition bind {A B : Type} (r : Result A) (k : A -> Result B) : Result B :=
  match r with
  | Ok a => k a
  | Throw what => Throw what
  end.

Declare Scope result_scope.
Delimit Scope result_scope with result.
Notation "x <- e ;; k" := (bind e (fun x => k))
  (at level 61, e at next level, right associativity) : result_scope.
Notation "e ;;; k" := (bind e (fun _ => k))
  (at level 61, right associativity) : result_scope.

(** [if ( FAILED( hr ) ) UBITRACK_THROW( what )]. *)
Definition check (hr : HRESULT) (what : string) : Result unit :=
  if FAILED hr then Throw what else Ok tt.

Definition SUCCEEDED (hr : HRESULT) : bool := negb (FAILED hr).

Module GraphBuilder.
Import DeviceSelector FormatNegotiation.

(** The state the media control was last asked for. *)
Inductive FILTER_STATE : Type := State_Stopped | State_Paused | State_Running.

Inductive ControlProperty : Type :=
| CameraControl_Exposure
| VideoProcAmp_Brightness | VideoProcAmp_Contrast | VideoProcAmp_Saturation
| VideoProcAmp_Sharpness | VideoProcAmp_Gamma | VideoProcAmp_WhiteBalance
| VideoProcAmp_BacklightCompensation | VideoProcAmp_Gain.

Inductive ControlFlags : Type := Flags_Auto | Flags_Manual.

(** One call of [IAMCameraControl::Set] or [IAMVideoProcAmp::Set]. *)
Record SetCall : Type := {
  set_property : ControlProperty;
  set_value : Z;
  set_flags : ControlFlags
}.

(** The camera control members, with the constructor's defaults below. *)
Record CameraSettings : Type := {
  m_cameraExposure : Z;
  m_cameraExposureAuto : bool;
  m_cameraBrightness : Z;
  m_cameraContrast : Z;
  m_cameraSaturation : Z;
  m_cameraSharpness : Z;
  m_cameraGamma : Z;
  m_cameraWhitebalance : Z;
  m_cameraWhitebalanceAuto : bool;
  m_cameraBacklightComp : bool;
  m_cameraGain : Z
}.

Definition default_settings : CameraSettings :=
  {| m_cameraExposure := 0; m_cameraExposureAuto := true;
     m_cameraBrightness := 0; m_cameraContrast := 11;
     m_cameraSaturation := 4; m_cameraSharpness := 3;
     m_cameraGamma := 150; m_cameraWhitebalance := 4500;
     m_cameraWhitebalanceAuto := true; m_cameraBacklightComp := false;
     m_cameraGain := 34 |}.

(** What the capture subsystem answers to the calls of [initGraph], on a
    system that hands out an enumerator ([selectDevice_from] has the other
    systems): the monikers the enumerator yields, the [HRESULT] of every call
    whose result is tested, the capabilities [GetStreamCaps] lists, and, depending on the
    format last passed to [SetFormat], the result of [RenderStream] and the
    media type [GetConnectedMediaType] reports. *)
Record CaptureSystem : Type := {
  monikers : list IMoniker;
  CoCreate_CaptureGraphBuilder2 : HRESULT;
  CoCreate_FilterGraph : HRESULT;
  BindToObject : IMoniker -> HRESULT;
  AddFilter_Capture : HRESULT;
  FindPin : HRESULT;
  QueryInterface_IAMStreamConfig : HRESULT;
  StreamCaps : list AM_MEDIA_TYPE;
  CoCreate_SampleGrabber : HRESULT;
  AddFilter_SampleGrab : HRESULT;
  CoCreate_NullRenderer : HRESULT;
  AddFilter_NullRender : HRESULT;
  RenderStream : option AM_MEDIA_TYPE -> HRESULT;
  ConnectedMediaType : option AM_MEDIA_TYPE -> AM_MEDIA_TYPE;
  QueryInterface_IAMCameraControl : HRESULT;
  QueryInterface_IAMVideoProcAmp : HRESULT;
  SetProperty : SetCall -> HRESULT
}.

(** [#undef HAVE_DIRECTSHOW] at the head of the file. *)
Definition HAVE_DIRECTSHOW : bool := false.

(** The calls of [Set] issued for a list of settings, each followed by its
    error line when it fails. *)
Definition set_all (cs : CaptureSystem) (calls : list SetCall)
    : list SetCall * list ControlProperty :=
  (calls,
   map set_property (filter (fun call => FAILED (SetProperty cs call)) calls)).

(** The block under [#ifdef HAVE_DIRECTSHOW]: the calls of [Set] issued and
    the properties for which an error is logged.  The [GetRange] and [Get]
    calls of the block only log. *)
Definition applyCameraControls (s : CameraSettings) (cs : CaptureSystem)
    : list SetCall * list ControlProperty :=
  let manual p v :=
    {| set_property := p; set_value := v; set_flags := Flags_Manual |} in
  let '(calls1, errors1) :=
    if SUCCEEDED (QueryInterface_IAMCameraControl cs) then
      set_all cs
        [ {| set_property := CameraControl_Exposure;
             set_value := m_cameraExposure s;
             set_flags := if m_cameraExposureAuto s
                          then Flags_Auto else Flags_Manual |} ]
    else ([], []) in
  let '(calls2, errors2) :=
    if SUCCEEDED (QueryInterface_IAMVideoProcAmp cs) then
      set_all cs
        [ manual VideoProcAmp_Brightness (m_cameraBrightness s);
          manual VideoProcAmp_Contrast (m_cameraContrast s);
          manual VideoProcAmp_Saturation (m_cameraSaturation s);
          manual VideoProcAmp_Sharpness (m_cameraSharpness s);
          manual VideoProcAmp_Gamma (m_cameraGamma s);
          {| set_property := VideoProcAmp_WhiteBalance;
             set_value := m_cameraWhitebalance s;
             set_flags := if m_cameraWhitebalanceAuto s
                          then Flags_Auto else Flags_Manual |};
          manual VideoProcAmp_BacklightCompensation
            (if m_cameraBacklightComp s then 1 else 0);
          manual VideoProcAmp_Gain (m_cameraGain s) ]
    else ([], []) in
  (calls1 ++ calls2, errors1 ++ errors2).

(** The graph [initGraph] leaves behind when it returns. *)
Record FilterGraph : Type := {
  selectedMoniker : IMoniker;
  selectedCamera : string;
  formatSet : option AM_MEDIA_TYPE;
  grabberOneShot : bool;
  grabberBufferSamples : bool;
  grabberCallbackMethod : Z;          (* 0 = SampleCB, 1 = BufferCB *)
  grabberMediaType : GUID * GUID;     (* major type and subtype asked for *)
  sampleWidth : Z;
  sampleHeight : Z;
  controlsSet : list SetCall;
  controlErrors : list ControlProperty;
  mediaControl : FILTER_STATE
}.

(** The test on the connected media type. *)
Definition supported (mediaType : AM_MEDIA_TYPE) : bool :=
  GUID_eqb (majortype mediaType) MEDIATYPE_Video &&
  GUID_eqb (subtype mediaType) MEDIASUBTYPE_RGB24 &&
  GUID_eqb (formattype mediaType) FORMAT_VideoInfo.

#[local] Open Scope result_scope.

(** [DirectShowFrameGrabber::initGraph], given an enumerator; [have] tells
    whether the camera control block is compiled in. *)
Definition initGraph_with (have : bool)
    (m_desiredName m_desiredDevicePath : string)
    (m_desiredWidth m_desiredHeight : Z)
    (settings : CameraSettings) (cs : CaptureSystem) : Result FilterGraph :=
  selected <- selectDevice m_desiredName m_desiredDevicePath (monikers cs) ;;
  (if SUCCEEDED (CoCreate_CaptureGraphBuilder2 cs) then
     if SUCCEEDED (CoCreate_FilterGraph cs) then Ok tt
     else Throw "Error creating filter graph manager"
   else Throw "Error creating capture graph builder") ;;;
  check (BindToObject cs (fst selected)) "Unable to create capture filter" ;;;
  check (AddFilter_Capture cs) "Unable to add capture filter" ;;;
  check (FindPin cs) "Unable to find pin" ;;;
  let format :=
    if FAILED (QueryInterface_IAMStreamConfig cs) then None
    else selectedFormat m_desiredWidth m_desiredHeight (StreamCaps cs) in
  check (CoCreate_SampleGrabber cs) "Unable to create sample grabber filter" ;;;
  check (AddFilter_SampleGrab cs) "Unable to add sample grabber filter" ;;;
  check (CoCreate_NullRenderer cs) "Unable to create null renderer filter" ;;;
  check (AddFilter_NullRender cs) "Unable to add null renderer filter" ;;;
  check (RenderStream cs format) "Unable to render stream" ;;;
  let mediaType := ConnectedMediaType cs format in
  if negb (supported mediaType) then Throw "Unsupported MEDIATYPE"
  else
    let '(calls, errors) :=
      if have then applyCameraControls settings cs else ([], []) in
    Ok {| selectedMoniker := fst selected;
          selectedCamera := snd selected;
          formatSet := format;
          grabberOneShot := false;
          grabberBufferSamples := false;
          grabberCallbackMethod := 0;
          grabberMediaType := (MEDIATYPE_Video, MEDIASUBTYPE_RGB24);
          sampleWidth := biWidth (pbFormat mediaType);
          sampleHeight := biHeight (pbFormat mediaType);
          controlsSet := calls;
          controlErrors := errors;
          mediaControl := State_Paused |}.

(** [initGraph] as this file compiles it. *)
Definition initGraph := initGraph_with HAVE_DIRECTSHOW.

(** Every call whose failure makes [initGraph] throw, for the selected
    moniker and the format set. *)
Definition checked_calls (cs : CaptureSystem) (selected : IMoniker)
    (format : option AM_MEDIA_TYPE) : list HRESULT :=
  [ CoCreate_CaptureGraphBuilder2 cs; CoCreate_FilterGraph cs;
    BindToObject cs selected; AddFilter_Capture cs; FindPin cs;
    CoCreate_SampleGrabber cs; AddFilter_SampleGrab cs;
    CoCreate_NullRenderer cs; AddFilter_NullRender cs;
    RenderStream cs format ].

(** The capture system with another answer to the query for
    [IAMStreamConfig] and other capabilities. *)
Definition with_stream_config (hr : HRESULT) (caps : list AM_MEDIA_TYPE)
    (cs : CaptureSystem) : CaptureSystem :=
  {| monikers := monikers cs;
     CoCreate_CaptureGraphBuilder2 := CoCreate_CaptureGraphBuilder2 cs;
     CoCreate_FilterGraph := CoCreate_FilterGraph cs;
     BindToObject := BindToObject cs;
     AddFilter_Capture := AddFilter_Capture cs;
     FindPin := FindPin cs;
     QueryInterface_IAMStreamConfig := hr;
     StreamCaps := caps;
     CoCreate_SampleGrabber := CoCreate_SampleGrabber cs;
     AddFilter_SampleGrab := AddFilter_SampleGrab cs;
     CoCreate_NullRenderer := CoCreate_NullRenderer cs;
     AddFilter_NullRender := AddFilter_NullRender cs;
     RenderStream := RenderStream cs;
     ConnectedMediaType := ConnectedMediaType cs;
     QueryInterface_IAMCameraControl := QueryInterface_IAMCameraControl cs;
     QueryInterface_IAMVideoProcAmp := QueryInterface_IAMVideoProcAmp cs;
     SetProperty := SetProperty cs |}.

End GraphBuilder.

Module GraphBuilderTerms.
Import DeviceSelector FormatNegotiation GraphBuilder.

(** The format in force when the stream is rendered: what the negotiation
    loop set, or none when the pin offers no [IAMStreamConfig]. *)
Definition negotiated (m_desiredWidth m_desiredHeight : Z)
    (cs : CaptureSystem) : option AM_MEDIA_TYPE :=
  if FAILED (QueryInterface_IAMStreamConfig cs) then None
  else selectedFormat m_desiredWidth m_desiredHeight (StreamCaps cs).

(** The properties the block sets through [IAMVideoProcAmp], in order. *)
Definition procamp_properties : list ControlProperty :=
  [ VideoProcAmp_Brightness; VideoProcAmp_Contrast; VideoProcAmp_Saturation;
    VideoProcAmp_Sharpness; VideoProcAmp_Gamma; VideoProcAmp_WhiteBalance;
    VideoProcAmp_BacklightCompensation; VideoProcAmp_Gain ].

End GraphBuilderTerms.

(* ------------------------------------------------------------------ *)
(** ** Lifecycle ([start], [startCapturing], [stop], the destructor) *)

(** What [Component::start] and [Component::stop] of the dataflow library
    make of the running flag. *)
Class ComponentBase : Type := {
  Component_start : bool -> bool;
  Component_stop : bool -> bool
}.

(** The base class sets the flag on start and clears it on stop. *)
Class ComponentBaseFlags `{ComponentBase} : Prop := {
  start_sets_running : forall b, Component_start b = true;
  stop_clears_running : forall b, Component_stop b = false
}.

Module Lifecycle.
Import GraphBuilder.

(** The component with its media control (absent before [initGraph]; the
    state is the one last asked for) and the number of [startCapturing]
    callbacks registered with the OpenCL manager. *)
Record Driver (TimestampSync Undistortion : Type) : Type := {
  grabber : DirectShowFrameGrabber TimestampSync Undistortion;
  m_pMediaControl : option FILTER_STATE;
  registeredInitCallbacks : nat
}.
Arguments grabber {TimestampSync Undistortion}.
Arguments m_pMediaControl {TimestampSync Undistortion}.
Arguments registeredInitCallbacks {TimestampSync Undistortion}.

Section Operations.

Context {TimestampSync Undistortion : Type} `{ComponentBase}.

Implicit Type d : Driver TimestampSync Undistortion.

Definition with_grabber c d : Driver TimestampSync Undistortion :=
  {| grabber := c; m_pMediaControl := m_pMediaControl d;
     registeredInitCallbacks := registeredInitCallbacks d |}.

(** [if ( m_pMediaControl ) m_pMediaControl->...()]. *)
Definition ask (state : FILTER_STATE) d : Driver TimestampSync Undistortion :=
  match m_pMediaControl d with
  | Some _ => {| grabber := grabber d; m_pMediaControl := Some state;
                 registeredInitCallbacks := registeredInitCallbacks d |}
  | None => d
  end.

(** [DirectShowFrameGrabber::startCapturing]. *)
Definition startCapturing d := ask State_Running d.

(** [oclManager.registerInitCallback( startCapturing )]. *)
Definition registerInitCallback d : Driver TimestampSync Undistortion :=
  {| grabber := grabber d; m_pMediaControl := m_pMediaControl d;
     registeredInitCallbacks := S (registeredInitCallbacks d) |}.

(** [DirectShowFrameGrabber::start]. *)
Definition start d : Driver TimestampSync Undistortion :=
  let d :=
    if negb (m_running (grabber d)) then
      let d :=
        if m_autoGPUUpload (grabber d) then registerInitCallback d
        else startCapturing d in
      with_grabber (set_running true (grabber d)) d
    else d in
  with_grabber
    (set_running (Component_start (m_running (grabber d))) (grabber d)) d.

(** [DirectShowFrameGrabber::stop]. *)
Definition stop d : Driver TimestampSync Undistortion :=
  let d :=
    if m_running (grabber d) &&
       match m_pMediaControl d with Some _ => true | None => false end
    then ask State_Paused d else d in
  with_grabber
    (set_running (Component_stop (m_running (grabber d))) (grabber d)) d.

(** The destructor, as far as the graph is concerned. *)
Definition destroy d := ask State_Stopped d.

(** [start] of the earlier variant. *)
Definition start_legacy d : Driver TimestampSync Undistortion :=
  let d :=
    if negb (m_running (grabber d)) &&
       match m_pMediaControl d with Some _ => true | None => false end
    then ask State_Running d else d in
  with_grabber
    (set_running (Component_start (m_running (grabber d))) (grabber d)) d.

(** The driver right after a successful [initGraph]. *)
Definition initialized (c : DirectShowFrameGrabber TimestampSync Undistortion)
    (g : FilterGraph) : Driver TimestampSync Undistortion :=
  {| grabber := c; m_pMediaControl := Some (mediaControl g);
     registeredInitCallbacks := O |}.

End Operations.

End Lifecycle.

(* ------------------------------------------------------------------ *)
(** ** The callback object as a COM object *)

Module ComIdentity.

(** An interface identifier, as [MIDL_DEFINE_GUID] lays it out. *)
Record IID : Type := {
  Data1 : Z;
  Data2 : Z;
  Data3 : Z;
  Data4 : list Z
}.

Definition MIDL_DEFINE_GUID (l w1 w2 b1 b2 b3 b4 b5 b6 b7 b8 : Z) : IID :=
  {| Data1 := l; Data2 := w1; Data3 := w2;
     Data4 := [b1; b2; b3; b4; b5; b6; b7; b8] |}.

Definition IID_eqb (a b : IID) : bool :=
  (Data1 a =? Data1 b) && (Data2 a =? Data2 b) && (Data3 a =? Data3 b) &&
  (if list_eq_dec Z.eq_dec (Data4 a) (Data4 b) then true else false).

(** The identifiers of [DirectShowInterfaces_i.c]. *)
Definition IID_IMediaControl :=
  MIDL_DEFINE_GUID 0x56a868b1 0x0ad4 0x11ce 0xb0 0x3a 0x00 0x20 0xaf 0x0b 0xa7 0x70.
Definition IID_IPin :=
  MIDL_DEFINE_GUID 0x56a86891 0x0ad4 0x11ce 0xb0 0x3a 0x00 0x20 0xaf 0x0b 0xa7 0x70.
Definition IID_ICreateDevEnum :=
  MIDL_DEFINE_GUID 0x29840822 0x5B84 0x11D0 0xBD 0x3B 0x00 0xA0 0xC9 0x11 0xCE 0x86.
Definition IID_IFilterGraph :=
  MIDL_DEFINE_GUID 0x56a8689f 0x0ad4 0x11ce 0xb0 0x3a 0x00 0x20 0xaf 0x0b 0xa7 0x70.
Definition IID_IGraphBuilder :=
  MIDL_DEFINE_GUID 0x56a868a9 0x0ad4 0x11ce 0xb0 0x3a 0x00 0x20 0xaf 0x0b 0xa7 0x70.
Definition IID_ICaptureGraphBuilder2 :=
  MIDL_DEFINE_GUID 0x93E5A4E0 0x2D50 0x11d2 0xAB 0xFA 0x00 0xA0 0xC9 0xC6 0xE3 0x8D.
Definition IID_IMediaFilter :=
  MIDL_DEFINE_GUID 0x56a86899 0x0ad4 0x11ce 0xb0 0x3a 0x00 0x20 0xaf 0x0b 0xa7 0x70.
Definition IID_IBaseFilter :=
  MIDL_DEFINE_GUID 0x56a86895 0x0ad4 0x11ce 0xb0 0x3a 0x00 0x20 0xaf 0x0b 0xa7 0x70.
Definition IID_IAMStreamConfig :=
  MIDL_DEFINE_GUID 0xC6E13340 0x30AC 0x11d0 0xA1 0x8C 0x00 0xA0 0xC9 0x11 0x89 0x56.
Definition IID_ISampleGrabberCB :=
  MIDL_DEFINE_GUID 0x0579154A 0x2B53 0x4994 0xB0 0xD0 0xE7 0x73 0x14 0x8E 0xFF 0x85.
Definition IID_ISampleGrabber :=
  MIDL_DEFINE_GUID 0x6B652FFF 0x11FE 0x4fce 0x92 0xAD 0x02 0x66 0xB5 0xD7 0xC7 0x8F.
Definition IID_IMediaSample :=
  MIDL_DEFINE_GUID 0x56a8689a 0x0ad4 0x11ce 0xb0 0x3a 0x00 0x20 0xaf 0x0b 0xa7 0x70.

Definition interface_ids : list IID :=
  [ IID_IMediaControl; IID_IPin; IID_ICreateDevEnum; IID_IFilterGraph;
    IID_IGraphBuilder; IID_ICaptureGraphBuilder2; IID_IMediaFilter;
    IID_IBaseFilter; IID_IAMStreamConfig; IID_ISampleGrabberCB;
    IID_ISampleGrabber; IID_IMediaSample ].

(** [__uuidof( IUnknown )], from the platform headers:
    00000000-0000-0000-C000-000000000046. *)
Definition IID_IUnknown :=
  MIDL_DEFINE_GUID 0 0 0 0xC0 0x00 0x00 0x00 0x00 0x00 0x00 0x46.

(** The result codes of the platform headers. *)
Definition E_POINTER : HRESULT := wrap32 0x80004003.
Definition E_NOTIMPL : HRESULT := wrap32 0x80004001.

(** What [QueryInterface] stores through [ppvObject]. *)
Inductive Interface : Type := this_as_IUnknown | this_as_ISampleGrabberCB.

(** [QueryInterface( riid, ppvObject )]; [ppvObject_given] tells whether
    [ppvObject] is not [NULL]. *)
Definition QueryInterface (riid : IID) (ppvObject_given : bool)
    : HRESULT * option Interface :=
  if negb ppvObject_given then (E_POINTER, None)
  else if IID_eqb riid IID_IUnknown then (S_OK, Some this_as_IUnknown)
  else if IID_eqb riid IID_ISampleGrabberCB
       then (S_OK, Some this_as_ISampleGrabberCB)
  else (E_NOTIMPL, None).

(** The fake reference counting. *)
Definition AddRef : Z := 1.
Definition Release : Z := 2.

(** [BufferCB], the callback method the grabber is not told to use. *)
Definition BufferCB : HRESULT := E_NOTIMPL.

End ComIdentity.

(* ------------------------------------------------------------------ *)
(** ** The intrinsics input port (the constructor's loop over the edges) *)

Module IntrinsicsPort.

(** An edge of the subgraph: its name, the key of [m_Edges], and whether it
    is an input. *)
Record Edge : Type := {
  edge_name : string;
  isInput : bool
}.

(** [0 == it->first.compare( 0, 15, "InputIntrinsics" )]. *)
Definition names_intrinsics (name : string) : bool :=
  String.eqb (substring 0 15 name) "InputIntrinsics".

(** The loop over [m_Edges], in the order of the map: the name of the port
    [m_intrinsicInPort] ends up with, if any. *)
Definition intrinsicInPort (m_Edges : list Edge) : option string :=
  fold_left
    (fun port it =>
       if isInput it then
         if names_intrinsics (edge_name it) then Some (edge_name it)
         else port
       else port)
    m_Edges None.

(** An edge that makes the loop create the port. *)
Definition creates_port (it : Edge) : bool :=
  isInput it && names_intrinsics (edge_name it).

End IntrinsicsPort.

(* ------------------------------------------------------------------ *)
(** ** The device loop of the earlier variant *)

Module LegacySelector.
Import DeviceSelector.




End LegacySelector.

(* ------------------------------------------------------------------ *)
(** ** Concrete devices, formats and cameras *)

Module Concrete.
Import DeviceSelector FormatNegotiation.

(** A synchronizer that maps every native time to local time 0. *)
Definition no_drift (s : unit) (t : double) : Timestamp * unit := (0, s).

(** A vision library that keeps every image on the CPU. *)
Definition on_cpu (i : Image unit) : ImageUploadState := OnCPU.

#[export] Instance concrete : Collaborators unit unit :=
  {| convertNativeToLocal := no_drift; getImageState := on_cpu |}.

(** A 640x480 camera with the constructor's defaults, the given divisor
    and the given running flag. *)
Definition camera (divisor : Z) (running : bool) : DirectShowFrameGrabber unit unit :=
  {| m_sampleWidth := 640; m_sampleHeight := 480;
     m_timeOffset := 0; m_divisor := divisor;
     m_desiredWidth := 320; m_desiredHeight := 240;
     m_nFrames := 0; m_lastTime := minus_1e10;
     m_autoGPUUpload := false; m_syncer := tt;
     m_undistorter := tt; m_running := running |}.

Definition all_connected : Host :=
  {| outPort_isConnected := true; colorOutPort_isConnected := true;
     outPortRAW_isConnected := true; oclManager_isInitialized := false |}.

Definition luminance_only : Host :=
  {| outPort_isConnected := true; colorOutPort_isConnected := false;
     outPortRAW_isConnected := false; oclManager_isInitialized := false |}.



(** A full 640x480x3 buffer, and one that is a byte short. *)
Definition full_sample : IMediaSample :=
  {| GetSize := 921600; GetPointer := S_OK; pBuffer := 4096 |}.


(** A full frame delivered at native time [n] seconds. *)
Definition frame_at (n : Z) : Invocation :=
  {| inv_host := all_connected; inv_Time := double_of_Z n;
     inv_sample := full_sample |}.

(** Four full frames at native times 1 to 4 seconds. *)
Definition four_frames : list Invocation :=
  [frame_at 1; frame_at 2; frame_at 3; frame_at 4].

(** An enumerated device with the given description and device path. *)
Definition device (name path : string) : IMoniker :=
  {| BindToStorage := S_OK; DevicePath := Some path;
     uninitialized := EmptyString;
     Description := Some name; FriendlyName := Some name |}.

(** A device whose property bag cannot be bound. *)
Definition unreadable : IMoniker :=
  {| BindToStorage := E_FAIL; DevicePath := None;
     uninitialized := EmptyString;
     Description := None; FriendlyName := None |}.

(** A device named [name] whose "DevicePath" does not read, enumerated
    while the buffer holds [stale]. *)
Definition pathless (name stale : string) : IMoniker :=
  {| BindToStorage := S_OK; DevicePath := None;
     uninitialized := stale;
     Description := Some name; FriendlyName := Some name |}.

(** An enumerator that yields the given monikers, and the empty category,
    for which no enumerator is created. *)
Definition enumerator (pEnum : list IMoniker) : SystemDeviceEnum :=
  {| CoCreateInstance := S_OK; CreateClassEnumerator := Some pEnum |}.

Definition empty_category : SystemDeviceEnum :=
  {| CoCreateInstance := S_OK; CreateClassEnumerator := None |}.

Definition camA : IMoniker := device "CamA" "\\path\\1".
Definition camB : IMoniker := device "CamB" "\\path\\2".
Definition other : IMoniker := device "Other" "\\path\\0".

(** The video header of a 640x480 capability. *)
Definition vga (avgTimePerFrame : Z) : VIDEOINFOHEADER :=
  {| AvgTimePerFrame := avgTimePerFrame; biWidth := 640; biHeight := 480 |}.

(** 640x480 RGB24 at 15 frames per second. *)
Definition rgb24_15fps : AM_MEDIA_TYPE :=
  {| majortype := MEDIATYPE_Video; subtype := MEDIASUBTYPE_RGB24;
     formattype := FORMAT_VideoInfo; pbFormat := vga 666666 |}.

(** 640x480 RGB24 at 30 frames per second. *)
Definition rgb24_30fps : AM_MEDIA_TYPE :=
  {| majortype := MEDIATYPE_Video; subtype := MEDIASUBTYPE_RGB24;
     formattype := FORMAT_VideoInfo; pbFormat := vga 333333 |}.

(** 640x480 YUY2 at 30 frames per second. *)
Definition yuy2_30fps : AM_MEDIA_TYPE :=
  {| majortype := MEDIATYPE_Video; subtype := MEDIASUBTYPE_YUY2;
     formattype := FORMAT_VideoInfo; pbFormat := vga 333333 |}.

End Concrete.

(* ------------------------------------------------------------------ *)
(** ** A concrete capture system and driver *)

Module Scenario.
Import DeviceSelector FormatNegotiation GraphBuilder Lifecycle Concrete.

(** What a delivery produced; the component itself when the remainder
    trapped. *)
Definition outcome (c : DirectShowFrameGrabber unit unit)
    (invs : list Invocation)
    : list (Dispatched unit unit) * DirectShowFrameGrabber unit unit :=
  match deliver c invs with
  | Some r => r
  | None => ([], c)
  end.

(** What one callback produced. *)
Definition dispatched (c : DirectShowFrameGrabber unit unit) (host : Host)
    (Time : double) (pSample : IMediaSample) : Dispatched unit unit :=
  match SampleCB c host Time pSample with
  | Some d => d
  | None => dropped c []
  end.

(** What the Frame Processor pushed during a callback. *)
Definition sent_of (d : Dispatched unit unit) : Sent unit :=
  match pushed d with
  | Some s => s
  | None => {| sentRAW := None; sentColor := None; sentOut := None |}
  end.

(** Three frames, the second with the timestamp of the first. *)
Definition repeated_frames : list Invocation :=
  [frame_at 1; frame_at 1; frame_at 2].

(** A 640x480 camera with a time offset of 5 ms. *)
Definition offset_camera : DirectShowFrameGrabber unit unit :=
  {| m_sampleWidth := 640; m_sampleHeight := 480;
     m_timeOffset := 5; m_divisor := 1;
     m_desiredWidth := 320; m_desiredHeight := 240;
     m_nFrames := 0; m_lastTime := minus_1e10;
     m_autoGPUUpload := false; m_syncer := tt;
     m_undistorter := tt; m_running := true |}.

(** A 640x480 camera configured to upload to the GPU, not yet started. *)
Definition gpu_camera : DirectShowFrameGrabber unit unit :=
  {| m_sampleWidth := 640; m_sampleHeight := 480;
     m_timeOffset := 0; m_divisor := 1;
     m_desiredWidth := 320; m_desiredHeight := 240;
     m_nFrames := 0; m_lastTime := minus_1e10;
     m_autoGPUUpload := true; m_syncer := tt;
     m_undistorter := tt; m_running := false |}.

(** 640x480 YUY2 at 15 frames per second. *)
Definition yuy2_15fps : AM_MEDIA_TYPE :=
  {| majortype := MEDIATYPE_Video; subtype := MEDIASUBTYPE_YUY2;
     formattype := FORMAT_VideoInfo; pbFormat := vga 666666 |}.

(** A system with one device that offers 640x480 only, on which every call
    succeeds and the stream connects as RGB24. *)
Definition webcam : CaptureSystem :=
  {| monikers := [camA];
     CoCreate_CaptureGraphBuilder2 := S_OK;
     CoCreate_FilterGraph := S_OK;
     BindToObject := fun _ => S_OK;
     AddFilter_Capture := S_OK;
     FindPin := S_OK;
     QueryInterface_IAMStreamConfig := S_OK;
     StreamCaps := [yuy2_30fps; rgb24_15fps];
     CoCreate_SampleGrabber := S_OK;
     AddFilter_SampleGrab := S_OK;
     CoCreate_NullRenderer := S_OK;
     AddFilter_NullRender := S_OK;
     RenderStream := fun _ => S_OK;
     ConnectedMediaType := fun _ => rgb24_30fps;
     QueryInterface_IAMCameraControl := S_OK;
     QueryInterface_IAMVideoProcAmp := S_OK;
     SetProperty := fun _ => E_FAIL |}.

(** The graph [initGraph] builds on it for a desired size of 320x240 and no
    desired name: the device is the fallback, whose name is not recorded. *)
Definition webcam_graph : FilterGraph :=
  {| selectedMoniker := camA;
     selectedCamera := EmptyString;
     formatSet := None;
     grabberOneShot := false;
     grabberBufferSamples := false;
     grabberCallbackMethod := 0;
     grabberMediaType := (MEDIATYPE_Video, MEDIASUBTYPE_RGB24);
     sampleWidth := 640;
     sampleHeight := 480;
     controlsSet := [];
     controlErrors := [];
     mediaControl := State_Paused |}.

(** A base class that sets the flag on start and clears it on stop. *)
Definition base : ComponentBase :=
  {| Component_start := fun _ => true; Component_stop := fun _ => false |}.

(** The driver after construction on [webcam]. *)
Definition driver : Driver unit unit :=
  initialized (constructed 640 480 tt tt) webcam_graph.

(** A driver configured for the GPU, its graph paused. *)
Definition gpu_driver : Driver unit unit :=
  {| grabber := gpu_camera; m_pMediaControl := Some State_Paused;
     registeredInitCallbacks := O |}.

End Scenario.

(* ------------------------------------------------------------------ *)
(** * Properties *)

Section DispatchFacts.

Context {TimestampSync Undistortion : Type}
  `{!Collaborators TimestampSync Undistortion}.

Implicit Types (c : DirectShowFrameGrabber TimestampSync Undistortion)
  (host : Host) (Time : double) (pSample : IMediaSample).

(* ------------------------------------------------------------------ *)
(** ** Facts about the machine arithmetic *)

Lemma wrap32_fits (z : Z) : fits_int z -> wrap32 z = z.
Proof.
  unfold fits_int, wrap32, INT_MIN, INT_MAX. intros H.
  rewrite Z.mod_small; lia.
Qed.

Lemma c_rem_pos (a b : Z) : 0 < b -> c_rem a b = Some (Z.rem a b).
Proof.
  intros Hb. unfold c_rem.
  destruct (Z.eqb_spec b 0); [lia|].
  destruct (Z.eqb_spec b (-1)); [lia|].
  now rewrite andb_false_r.
Qed.

Lemma c_rem_defined (a b : Z) :
  b <> 0 -> b <> -1 -> c_rem a b = Some (Z.rem a b).
Proof.
  intros H0 H1. unfold c_rem.
  destruct (Z.eqb_spec b 0); [contradiction|].
  destruct (Z.eqb_spec b (-1)); [contradiction|].
  now rewrite andb_false_r.
Qed.


(** ** Facts about the comparison of doubles *)

Lemma pos_compare_cont_Eq (p q : positive) :
  Pos.compare_cont Eq p q = Eq -> p = q.
Proof. apply Pos.compare_eq. Qed.

(** [a == b] holds between two zeros, or between equal numbers. *)
Lemma double_eqb_true (a b : double) :
  double_eqb a b = true ->
  (exists s s', a = S754_zero s /\ b = S754_zero s') \/
  (a = b /\ is_nan a = false).
Proof.
  unfold double_eqb, SFeqb, SFcompare.
  destruct a as [s| s| |s m e], b as [s'|s'| |s' m' e']; intros H;
    try discriminate; try (destruct s; discriminate);
    try (destruct s'; discriminate).
  - left. eauto.
  - right. destruct s, s'; try discriminate; auto.
  - right. destruct s, s'; try discriminate.
    + destruct (Z.compare_spec e e'); try discriminate. subst e'.
      destruct (Pos.compare_cont Eq m m') eqn:E; try discriminate.
      apply pos_compare_cont_Eq in E. subst. auto.
    + destruct (Z.compare_spec e e'); try discriminate. subst e'.
      destruct (Pos.compare_cont Eq m m') eqn:E; try discriminate.
      apply pos_compare_cont_Eq in E. subst. auto.
Qed.

Lemma double_eqb_refl (a : double) : is_nan a = false -> double_eqb a a = true.
Proof.
  unfold double_eqb, SFeqb, SFcompare.
  destruct a as [s|s| |s m e]; intros H; try discriminate; auto.
  - destruct s; reflexivity.
  - rewrite Z.compare_refl.
    change (Pos.compare_cont Eq m m) with (Pos.compare m m).
    rewrite Pos.compare_refl. destruct s; reflexivity.
Qed.



(** A timestamp strictly above the stored one is not a duplicate. *)
Lemma double_ltb_not_eqb (a b : double) :
  double_ltb a b = true -> double_eqb b a = false.
Proof.
  intros Hlt. destruct (double_eqb b a) eqn:E; [|reflexivity].
  exfalso. revert Hlt.
  destruct (double_eqb_true _ _ E) as [(s & s' & -> & ->)|[-> Hn]].
  - discriminate.
  - unfold double_ltb, SFltb. fold (SFeqb a a) in *.
    pose proof (double_eqb_refl a Hn) as R. unfold double_eqb, SFeqb in R.
    destruct (SFcompare a a) as [[]|]; discriminate.
Qed.

(* ------------------------------------------------------------------ *)
(** ** The branches of [SampleCB] *)

Lemma SampleCB_duplicate c host Time pSample :
  double_eqb Time (m_lastTime c) = true ->
  SampleCB c host Time pSample =
  Some (dropped c [SampleCB_called; Got_double_frame]).
Proof. intros H. unfold SampleCB. now rewrite H. Qed.

Lemma SampleCB_not_running c host Time pSample :
  double_eqb Time (m_lastTime c) = false ->
  m_running c = false ->
  SampleCB c host Time pSample =
  Some (dropped (set_lastTime Time c) [SampleCB_called]).
Proof. intros H R. unfold SampleCB. rewrite H. cbn. now rewrite R. Qed.

Lemma SampleCB_skipped c host Time pSample r :
  double_eqb Time (m_lastTime c) = false ->
  m_running c = true ->
  c_rem (wrap32 (m_nFrames c + 1)) (m_divisor c) = Some r ->
  r <> 0 ->
  SampleCB c host Time pSample = Some (dropped (counted Time c) [SampleCB_called]).
Proof.
  intros H R Hr Hnz. unfold SampleCB. rewrite H. cbn. rewrite R. cbn.
  rewrite Hr. destruct (Z.eqb_spec r 0); [contradiction|]. reflexivity.
Qed.

Lemma SampleCB_undersized c host Time pSample :
  double_eqb Time (m_lastTime c) = false ->
  m_running c = true ->
  c_rem (wrap32 (m_nFrames c + 1)) (m_divisor c) = Some 0 ->
  GetSize pSample < required_size c ->
  SampleCB c host Time pSample =
  Some (dropped (counted Time c) [SampleCB_called; Invalid_sample_size]).
Proof.
  intros H R Hr Hsz. unfold SampleCB. rewrite H. cbn. rewrite R. cbn.
  rewrite Hr. cbn.
  change (required_size (set_nFrames _ (set_lastTime Time c)))
    with (required_size c).
  destruct (Z.ltb_spec (GetSize pSample) (required_size c)); [reflexivity|lia].
Qed.

Lemma SampleCB_no_pointer c host Time pSample :
  double_eqb Time (m_lastTime c) = false ->
  m_running c = true ->
  c_rem (wrap32 (m_nFrames c + 1)) (m_divisor c) = Some 0 ->
  required_size c <= GetSize pSample ->
  FAILED (GetPointer pSample) = true ->
  SampleCB c host Time pSample =
  Some (dropped (counted Time c) [SampleCB_called; GetPointer_failed]).
Proof.
  intros H R Hr Hsz Hp. unfold SampleCB. rewrite H. cbn. rewrite R. cbn.
  rewrite Hr. cbn.
  change (required_size (set_nFrames _ (set_lastTime Time c)))
    with (required_size c).
  destruct (Z.ltb_spec (GetSize pSample) (required_size c)); [lia|].
  now rewrite Hp.
Qed.

Lemma SampleCB_forwarded c host Time pSample :
  double_eqb Time (m_lastTime c) = false ->
  m_running c = true ->
  c_rem (wrap32 (m_nFrames c + 1)) (m_divisor c) = Some 0 ->
  sample_ok c pSample = true ->
  let img := BufferImage (m_sampleWidth c) (m_sampleHeight c) bgr24
               (pBuffer pSample) in
  SampleCB c host Time pSample =
  Some {| returned := S_OK; after := synced Time c; logged := [SampleCB_called];
          forwarded := Some (stamped Time c, img);
          pushed := Some (handleFrame (synced Time c) host (stamped Time c) img) |}.
Proof.
  intros H R Hr Hok img. unfold SampleCB. rewrite H. cbn. rewrite R. cbn.
  rewrite Hr. cbn.
  change (required_size (set_nFrames _ (set_lastTime Time c)))
    with (required_size c).
  unfold sample_ok in Hok. apply andb_true_iff in Hok as [Hs Hp].
  apply negb_true_iff in Hs, Hp. rewrite Hs, Hp.
  unfold synced, stamped, counted.
  destruct (convertNativeToLocal (m_syncer c) Time) as [ut sy]. reflexivity.
Qed.

Lemma SampleCB_cases c host Time pSample :
  SampleCB_case c host Time pSample (SampleCB c host Time pSample).
Proof.
  destruct (double_eqb Time (m_lastTime c)) eqn:H.
  { rewrite SampleCB_duplicate by assumption. now constructor. }
  destruct (m_running c) eqn:R.
  2:{ rewrite SampleCB_not_running by assumption. now constructor. }
  destruct (c_rem (wrap32 (m_nFrames c + 1)) (m_divisor c)) as [r|] eqn:Hr.
  2:{ replace (SampleCB c host Time pSample)
        with (@None (Dispatched TimestampSync Undistortion)).
      - now apply case_trap.
      - unfold SampleCB. rewrite H. cbn. rewrite R. cbn. now rewrite Hr. }
  destruct (Z.eq_dec r 0) as [->|Hnz].
  2:{ erewrite SampleCB_skipped by eassumption. eapply case_skipped; eassumption. }
  destruct (Z.lt_ge_cases (GetSize pSample) (required_size c)) as [Hs|Hs].
  { rewrite SampleCB_undersized by assumption. now constructor. }
  destruct (FAILED (GetPointer pSample)) eqn:Hp.
  { rewrite SampleCB_no_pointer by assumption. now constructor. }
  assert (Hok : sample_ok c pSample = true).
  { unfold sample_ok. rewrite Hp.
    destruct (Z.ltb_spec (GetSize pSample) (required_size c)); [lia|reflexivity]. }
  rewrite SampleCB_forwarded by assumption. now constructor.
Qed.

(* ------------------------------------------------------------------ *)
(** ** The divisor cadence *)

Lemma sample_ok_ext c c' s :
  m_sampleWidth c' = m_sampleWidth c ->
  m_sampleHeight c' = m_sampleHeight c ->
  sample_ok c' s = sample_ok c s.
Proof. intros W H. unfold sample_ok, required_size. now rewrite W, H. Qed.

(** One fresh frame delivered to a running component. *)
Lemma SampleCB_running_fresh c host Time s :
  m_running c = true ->
  0 < m_divisor c ->
  0 <= m_nFrames c < INT_MAX ->
  double_eqb Time (m_lastTime c) = false ->
  exists d,
    SampleCB c host Time s = Some d /\
    returned d = S_OK /\
    m_nFrames (after d) = m_nFrames c + 1 /\
    m_lastTime (after d) = Time /\
    m_running (after d) = true /\
    m_divisor (after d) = m_divisor c /\
    m_sampleWidth (after d) = m_sampleWidth c /\
    m_sampleHeight (after d) = m_sampleHeight c /\
    is_forwarded d =
      (((m_nFrames c + 1) mod m_divisor c =? 0) && sample_ok c s) /\
    (is_forwarded d = false -> pushed d = None).
Proof.
  intros R Hd Hn Hfresh.
  assert (Hw : wrap32 (m_nFrames c + 1) = m_nFrames c + 1).
  { apply wrap32_fits. unfold fits_int, INT_MIN, INT_MAX in *. lia. }
  assert (Hrem : c_rem (wrap32 (m_nFrames c + 1)) (m_divisor c)
                 = Some ((m_nFrames c + 1) mod m_divisor c)).
  { rewrite Hw, c_rem_pos by assumption. f_equal.
    apply Z.rem_mod_nonneg; lia. }
  pose proof (SampleCB_cases c host Time s) as Hc.
  inversion Hc as [E|E R'|E R' T|r E R' T Hr|E R' T Hs|E R' T Hs Hp|E R' T Hok];
    try congruence.
  - (* skipped by the divisor *)
    eexists. split; [reflexivity|]. cbn. rewrite Hw.
    rewrite Hrem in T. injection T as T.
    destruct (Z.eqb_spec ((m_nFrames c + 1) mod m_divisor c) 0); [congruence|].
    repeat split; auto.
  - (* undersized buffer *)
    eexists. split; [reflexivity|]. cbn. rewrite Hw.
    unfold sample_ok.
    destruct (Z.ltb_spec (GetSize s) (required_size c)); [|lia].
    cbn. rewrite andb_false_r. repeat split; auto.
  - (* no pointer *)
    eexists. split; [reflexivity|]. cbn. rewrite Hw.
    unfold sample_ok. rewrite Hp. cbn. rewrite !andb_false_r.
    repeat split; auto.
  - (* forwarded *)
    eexists. split; [reflexivity|]. cbn. rewrite Hw.
    rewrite Hrem in T. injection T as T. rewrite T, Hok. cbn.
    repeat split; auto. discriminate.
Qed.

(** The cadence from any counter value [m_nFrames c]. *)
Lemma deliver_cadence invs : forall c,
  m_running c = true ->
  0 < m_divisor c ->
  0 <= m_nFrames c ->
  m_nFrames c + Z.of_nat (List.length invs) <= INT_MAX ->
  increasing_from (m_lastTime c) (map inv_Time invs) = true ->
  exists ds c',
    deliver c invs = Some (ds, c') /\
    List.length ds = List.length invs /\
    forall i inv d,
      nth_error invs i = Some inv -> nth_error ds i = Some d ->
      returned d = S_OK /\
      is_forwarded d =
        (((m_nFrames c + Z.of_nat i + 1) mod m_divisor c =? 0)
         && sample_ok c (inv_sample inv)) /\
      (is_forwarded d = false -> pushed d = None).
Proof.
  induction invs as [|inv0 rest IH]; intros c R Hd Hn Hlen Hinc.
  - exists [], c. split; [reflexivity|]. split; [reflexivity|].
    intros i inv d Hnth; destruct i; discriminate Hnth.
  - cbn [map increasing_from] in Hinc. apply andb_true_iff in Hinc as [Hlt Hinc].
    cbn [List.length] in Hlen.
    destruct (SampleCB_running_fresh c (inv_host inv0) (inv_Time inv0)
                (inv_sample inv0) R Hd)
      as (d0 & E0 & Hret & Hn' & Hl' & R' & D' & W' & H' & Hf & Hp).
    { lia. }
    { now apply double_ltb_not_eqb. }
    destruct (IH (after d0)) as (ds & c' & E & L & Hall).
    { exact R'. } { lia. } { lia. } { rewrite Hn'. lia. }
    { now rewrite Hl'. }
    exists (d0 :: ds), c'. cbn [deliver]. rewrite E0, E.
    split; [reflexivity|]. split; [cbn; now rewrite L|].
    intros [|i] inv d Hi Hdi; cbn in Hi, Hdi.
    + injection Hi as <-. injection Hdi as <-.
      rewrite Z.add_0_r. auto.
    + destruct (Hall i inv d Hi Hdi) as (Hr1 & Hf1 & Hp1).
      split; [exact Hr1|]. split; [|exact Hp1].
      rewrite Hf1, Hn', D', (sample_ok_ext c (after d0)) by assumption.
      do 3 f_equal. lia.
Qed.

(** C1 (amended).  A running component whose frame counter is still zero
    receives frames with strictly increasing native timestamps (the first
    above the stored last timestamp, fewer than 2^31 of them) and has a
    positive divisor.  Every call returns, and the frame with 0-based index
    [i] is forwarded to the frame processor exactly when its 1-based count
    [i + 1] is congruent to zero modulo the divisor and its buffer passes the
    size check and the pointer acquisition; every other frame is dropped
    without output.  With divisor 1 every frame with a good buffer is
    forwarded. *)
Theorem divisor_cadence_counts_from_one c invs :
  m_running c = true ->
  m_nFrames c = 0 ->
  0 < m_divisor c ->
  Z.of_nat (List.length invs) <= INT_MAX ->
  increasing_from (m_lastTime c) (map inv_Time invs) = true ->
  exists ds c',
    deliver c invs = Some (ds, c') /\
    List.length ds = List.length invs /\
    (forall i inv d,
       nth_error invs i = Some inv -> nth_error ds i = Some d ->
       (is_forwarded d = true <->
          (Z.of_nat i + 1) mod m_divisor c = 0 /\
          sample_ok c (inv_sample inv) = true) /\
       (is_forwarded d = false -> pushed d = None)) /\
    (m_divisor c = 1 ->
     forall i inv d,
       nth_error invs i = Some inv -> nth_error ds i = Some d ->
       is_forwarded d = sample_ok c (inv_sample inv)).
Proof.
  intros R Hn Hd Hlen Hinc.
  destruct (deliver_cadence invs c R Hd) as (ds & c' & E & L & Hall);
    [lia|lia|exact Hinc|].
  exists ds, c'. split; [exact E|]. split; [exact L|]. split.
  - intros i inv d Hi Hdi.
    destruct (Hall i inv d Hi Hdi) as (_ & Hf & Hp).
    split; [|exact Hp]. rewrite Hf, Hn, Z.add_0_l, andb_true_iff, Z.eqb_eq.
    tauto.
  - intros H1 i inv d Hi Hdi.
    destruct (Hall i inv d Hi Hdi) as (_ & Hf & _).
    rewrite Hf, H1, Z.mod_1_r. reflexivity.
Qed.




(** C10.  While the component is not running every invocation returns
    [S_OK], forwards and pushes nothing and leaves the frame counter and the
    running flag as they were; when its timestamp is fresh the stored last
    timestamp becomes that timestamp, so that a later invocation with the
    same (non-NaN) timestamp is discarded as a duplicate whether or not the
    component has been started in between. *)
Theorem stopped_frame_updates_lastTime_only c host Time pSample :
  m_running c = false ->
  exists d,
    SampleCB c host Time pSample = Some d /\
    returned d = S_OK /\ forwarded d = None /\ pushed d = None /\
    m_nFrames (after d) = m_nFrames c /\
    m_running (after d) = false /\
    (double_eqb Time (m_lastTime c) = false ->
     after d = set_lastTime Time c /\
     m_lastTime (after d) = Time /\
     forall b host' pSample',
       is_nan Time = false ->
       SampleCB (set_running b (after d)) host' Time pSample' =
       Some (dropped (set_running b (after d))
               [SampleCB_called; Got_double_frame])).
Proof.
  intros R.
  destruct (double_eqb Time (m_lastTime c)) eqn:E.
  - rewrite SampleCB_duplicate by assumption.
    eexists. split; [reflexivity|]. cbn.
    do 5 (split; [reflexivity || assumption|]). intros H; discriminate H.
  - rewrite SampleCB_not_running by assumption.
    eexists. split; [reflexivity|]. cbn.
    do 5 (split; [reflexivity || assumption|]). intros _.
    split; [reflexivity|]. split; [reflexivity|].
    intros b host' pSample' Hn. apply SampleCB_duplicate. cbn.
    now apply double_eqb_refl.
Qed.

(* ------------------------------------------------------------------ *)
(** ** The Frame Processor *)

Lemma uploaded_size c host img :
  width (uploaded c host img) = width img /\
  height (uploaded c host img) = height img /\
  undistortions (uploaded c host img) = undistortions img /\
  resizes (uploaded c host img) = resizes img.
Proof. unfold uploaded. destruct (_ && _); cbn; auto. Qed.

Lemma toGrey_counts img :
  undistortions (toGrey img) = undistortions img /\
  resizes (toGrey img) = resizes img /\
  width (toGrey img) = width img /\ height (toGrey img) = height img.
Proof. unfold toGrey. destruct (on_gpu img); cbn; auto. Qed.

(** The luminance image, for any image the processor is handed. *)
Lemma luminance_undistortions c host utTime bufferImage :
  outPort_isConnected host = true ->
  exists grey,
    sentOut (handleFrame c host utTime bufferImage) = Some (utTime, grey) /\
    undistortions grey = S (undistortions bufferImage).
Proof.
  intros Hout. unfold handleFrame.
  destruct (uploaded_size c host bufferImage) as (_ & _ & Hu & _).
  set (b := uploaded c host bufferImage) in *.
  rewrite Hout.
  destruct (colorOutPort_isConnected host);
    destruct ((0 <? m_desiredWidth c) && (0 <? m_desiredHeight c) &&
              ((m_desiredWidth c <? width b) || (m_desiredHeight c <? height b)));
    cbn; eexists; (split; [reflexivity|]); cbn;
    repeat match goal with
           | |- context [toGrey ?i] =>
             let H := fresh in
             destruct (toGrey_counts i) as (H & _); rewrite H; clear H
           end; cbn; congruence.
Qed.

(** C5.  For a frame built from the capture buffer in the 24-bit BGR format,
    whenever the luminance port is connected a luminance image is pushed,
    and undistortion was applied exactly once on the way to it, whether or
    not the colour port is connected, whether or not the frame was resized,
    and whether or not it was uploaded to the GPU. *)
Theorem luminance_undistorted_exactly_once c host utTime w h buffer :
  outPort_isConnected host = true ->
  exists grey,
    sentOut (handleFrame c host utTime (BufferImage w h bgr24 buffer))
      = Some (utTime, grey) /\
    undistortions grey = 1%nat.
Proof.
  intros Hout.
  destruct (luminance_undistortions c host utTime
              (BufferImage w h bgr24 buffer) Hout) as (g & E & U).
  exists g. split; [exact E|exact U].
Qed.

(** The same for the frames [SampleCB] hands to the processor. *)
Lemma dispatched_luminance_undistorted_once c host Time pSample d sent :
  SampleCB c host Time pSample = Some d ->
  pushed d = Some sent ->
  outPort_isConnected host = true ->
  exists t grey, sentOut sent = Some (t, grey) /\ undistortions grey = 1%nat.
Proof.
  intros E P Hout. pose proof (SampleCB_cases c host Time pSample) as Hc.
  rewrite E in Hc. inversion Hc; subst; cbn in P; try discriminate.
  injection P as <-.
  destruct (luminance_undistortions (synced Time c) host (stamped Time c)
              (BufferImage (m_sampleWidth c) (m_sampleHeight c) bgr24
                 (pBuffer pSample)) Hout) as (g & Eg & U).
  eauto.
Qed.

(** C8.  With positive desired dimensions and the colour port connected, a
    colour image is pushed.  If the frame is wider or higher than desired,
    that image is the undistorted resize of the frame to exactly the
    desired width and height; otherwise it is the undistorted frame itself,
    at the frame's own size, with no resize on the way. *)
Theorem resize_policy c host utTime bufferImage :
  0 < m_desiredWidth c -> 0 < m_desiredHeight c ->
  colorOutPort_isConnected host = true ->
  exists color,
    sentColor (handleFrame c host utTime bufferImage) = Some (utTime, color) /\
    (m_desiredWidth c < width bufferImage \/
     m_desiredHeight c < height bufferImage ->
     color = Undistort (m_undistorter c)
               (Resize (m_desiredWidth c) (m_desiredHeight c)
                  (uploaded c host bufferImage)) /\
     width color = m_desiredWidth c /\ height color = m_desiredHeight c /\
     resizes color = S (resizes bufferImage)) /\
    (width bufferImage <= m_desiredWidth c /\
     height bufferImage <= m_desiredHeight c ->
     color = Undistort (m_undistorter c) (uploaded c host bufferImage) /\
     width color = width bufferImage /\ height color = height bufferImage /\
     resizes color = resizes bufferImage).
Proof.
  intros Hw Hh Hcol. unfold handleFrame.
  destruct (uploaded_size c host bufferImage) as (Ew & Eh & _ & Er).
  set (b := uploaded c host bufferImage) in *.
  rewrite Hcol, Ew, Eh.
  destruct (Z.ltb_spec 0 (m_desiredWidth c)); [|lia].
  destruct (Z.ltb_spec 0 (m_desiredHeight c)); [|lia].
  cbn [andb].
  destruct (Z.ltb_spec (m_desiredWidth c) (width bufferImage));
    destruct (Z.ltb_spec (m_desiredHeight c) (height bufferImage));
    cbn [orb]; eexists; (split; [reflexivity|]);
    (split; [intros Hlarger|intros Hsmall]); try lia; cbn;
    rewrite ?Ew, ?Eh, ?Er; auto.
Qed.

End DispatchFacts.

(* ------------------------------------------------------------------ *)
(** ** The Device Selector *)

Module DeviceSelectorFacts.
Import DeviceSelector.

Lemma default_to_selected d sel :
  exists m, pSelectedMoniker (default_to d sel) = Some m /\
            sSelectedCamera (default_to d sel) = sSelectedCamera sel /\
            (pSelectedMoniker sel = None -> m = d) /\
            (forall m', pSelectedMoniker sel = Some m' -> m = m').
Proof.
  unfold default_to. destruct (pSelectedMoniker sel) as [m|] eqn:E.
  - exists m. rewrite E. repeat split; congruence.
  - exists d. cbn. repeat split; congruence.
Qed.

Lemma default_to_idem d sel :
  pSelectedMoniker sel <> None -> default_to d sel = sel.
Proof. unfold default_to. destruct (pSelectedMoniker sel); congruence. Qed.

(** One iteration: either the body selects [d] and breaks, or the loop goes
    on with [d] as the default if there was none. *)
Lemma enumerate_step name path d rest sel :
  enumerate name path (d :: rest) sel =
  if matches name path d
  then {| pSelectedMoniker := Some d; sSelectedCamera := cameraName d |}
  else enumerate name path rest (default_to d sel).
Proof.
  cbn [enumerate]. unfold matches, name_matches, usable, cameraName.
  destruct (FAILED (BindToStorage d)); cbn.
  { now rewrite andb_false_r. }
  destruct (sName d) as [n|]; cbn.
  2:{ now rewrite andb_false_r. }
  destruct (empty name); cbn; [reflexivity|].
  destruct (strstr n name); cbn; [|reflexivity].
  destruct (empty path); cbn; [reflexivity|].
  destruct (strstr (sDevicePath d) path); reflexivity.
Qed.

(** Without a match the loop leaves the default in place. *)
Lemma enumerate_no_match name path devs : forall sel,
  (forall x, In x devs -> matches name path x = false) ->
  pSelectedMoniker sel <> None ->
  enumerate name path devs sel = sel.
Proof.
  induction devs as [|d rest IH]; intros sel Hno Hsel; [reflexivity|].
  rewrite enumerate_step, (Hno d (or_introl eq_refl)).
  rewrite default_to_idem by assumption.
  apply IH; [|assumption]. intros x Hx. apply Hno. now right.
Qed.


(** Without a match the first enumerated device is used. *)
Lemma enumerate_fallback name path d0 rest :
  (forall x, In x (d0 :: rest) -> matches name path x = false) ->
  enumerate name path (d0 :: rest) no_selection =
  {| pSelectedMoniker := Some d0; sSelectedCamera := EmptyString |}.
Proof.
  intros Hno. rewrite enumerate_step, (Hno d0 (or_introl eq_refl)).
  rewrite enumerate_no_match.
  - reflexivity.
  - intros x Hx. apply Hno. now right.
  - discriminate.
Qed.


(** Some moniker is selected as soon as one was enumerated. *)
Lemma enumerate_selects name path devs : forall sel,
  devs <> [] \/ pSelectedMoniker sel <> None ->
  pSelectedMoniker (enumerate name path devs sel) <> None.
Proof.
  induction devs as [|d rest IH]; intros sel H.
  - cbn. destruct H; congruence.
  - rewrite enumerate_step. destruct (matches name path d); [discriminate|].
    apply IH. right.
    destruct (default_to_selected d sel) as (m & E & _). congruence.
Qed.

Lemma selectDevice_nonempty name path devs :
  devs <> [] -> exists m cam, selectDevice name path devs = Ok (m, cam).
Proof.
  intros H. unfold selectDevice.
  pose proof (enumerate_selects name path devs no_selection (or_introl H)) as S.
  destruct (pSelectedMoniker (enumerate name path devs no_selection));
    [eauto|congruence].
Qed.

Lemma selectDevice_throws name path devs what :
  selectDevice name path devs = Throw what -> devs = [].
Proof.
  intros H. destruct devs as [|d rest]; [reflexivity|].
  destruct (selectDevice_nonempty name path (d :: rest)) as (m & cam & E);
    [discriminate|congruence].
Qed.


(** C9.  Selection succeeds whenever the enumeration contains a usable
    device, and indeed whenever it contains any device.  With a desired name
    configured and no device matching it (by name, and by path when a path
    fragment is configured), the first enumerated device is selected, with
    no camera name recorded.  The only way to throw is an empty enumeration. *)
Theorem selection_falls_back_to_first name path devs :
  ((exists d, In d devs /\ usable d = true) ->
   exists m cam, selectDevice name path devs = Ok (m, cam)) /\
  (devs <> [] -> exists m cam, selectDevice name path devs = Ok (m, cam)) /\
  (forall d0 rest,
     devs = d0 :: rest ->
     empty name = false ->
     (forall x, In x devs -> matches name path x = false) ->
     selectDevice name path devs = Ok (d0, EmptyString)) /\
  (forall what, selectDevice name path devs = Throw what -> devs = []).
Proof.
  split; [|split; [|split]].
  - intros (d & Hin & _). apply selectDevice_nonempty.
    intros ->. exact Hin.
  - apply selectDevice_nonempty.
  - intros d0 rest -> _ Hno. unfold selectDevice.
    now rewrite enumerate_fallback.
  - intros what. apply selectDevice_throws.
Qed.

End DeviceSelectorFacts.

(* ------------------------------------------------------------------ *)
(** ** Format negotiation at a concrete device *)

Module FormatNegotiationFacts.
Import FormatNegotiation Concrete.

(** In the current loop any eligible capability with a higher frame rate
    replaces an RGB24 capability set just before it, whatever its layout. *)
Lemma faster_format_displaces dw dh a b :
  eligible dw dh a = true -> eligible dw dh b = true ->
  subtype a = MEDIASUBTYPE_RGB24 ->
  float_ltb (fps_of (pbFormat a)) (fps_of (pbFormat b)) = true ->
  selectedFormat dw dh [a; b] = Some b.
Proof.
  unfold eligible. intros Ha Hb Sa Hfps.
  apply andb_true_iff in Ha as [Ha Ha3]. apply andb_true_iff in Ha as [Ha1 Ha2].
  apply andb_true_iff in Hb as [Hb Hb3]. apply andb_true_iff in Hb as [Hb1 Hb2].
  unfold selectedFormat, negotiate. cbn [fold_left]. unfold neg_step at 2.
  rewrite Ha1, Ha2, Ha3, Sa. cbn.
  unfold neg_step. rewrite Hb1, Hb2, Hb3. cbn [negb orb andb fCurrentFps].
  rewrite Hfps, orb_true_r. reflexivity.
Qed.

(** In the earlier variant an RGB24 format, once set, is only ever replaced
    by another RGB24 format. *)
Lemma legacy_never_displaces_RGB24 dw dh caps : forall cur,
  subtype cur = MEDIASUBTYPE_RGB24 ->
  exists f, negotiate_legacy dw dh caps true (Some cur) = Some f /\
            subtype f = MEDIASUBTYPE_RGB24.
Proof.
  induction caps as [|m rest IH]; intros cur Hcur; cbn [negotiate_legacy].
  - eauto.
  - destruct (negb _ || negb _); [now apply IH|].
    cbn [negb orb].
    destruct (size_matches dw dh (pbFormat m)); cbn [andb]; [|now apply IH].
    unfold GUID_eqb at 1.
    destruct (GUID_eq_dec (subtype m) MEDIASUBTYPE_RGB24); [eauto|now apply IH].
Qed.

(** C3 (the code at the failing input).  The device advertises 640x480
    RGB24 at 15 fps and then 640x480 YUY2 at 30 fps, and 640x480 is
    desired.  The loop first sets the RGB24 format and then replaces it by
    the YUY2 one, because that has the higher frame rate; in the other
    order the RGB24 format is kept.  Among RGB24 formats the last one
    advertised wins, not the fastest. *)
Theorem negotiation_displaces_RGB24 :
  selectedFormat 640 480 [rgb24_15fps] = Some rgb24_15fps /\
  selectedFormat 640 480 [rgb24_15fps; yuy2_30fps] = Some yuy2_30fps /\
  selectedFormat 640 480 [yuy2_30fps; rgb24_15fps] = Some rgb24_15fps /\
  selectedFormat 640 480 [rgb24_30fps; rgb24_15fps] = Some rgb24_15fps.
Proof. repeat split; vm_compute; reflexivity. Qed.

(** The earlier variant keeps the RGB24 format at the same input. *)
Example legacy_keeps_RGB24 :
  negotiate_legacy 640 480 [rgb24_15fps; yuy2_30fps] false None
  = Some rgb24_15fps.
Proof. vm_compute. reflexivity. Qed.

End FormatNegotiationFacts.

Module Witnesses.
Import DeviceSelector FormatNegotiation Concrete.

(** With divisor 2 and two good frames at times 1 and 2, the frame with
    index 0 is dropped although 0 is congruent to zero modulo 2, and the
    frame with index 1 is forwarded although 1 is not. *)
Lemma cadence_index_zero_dropped :
  m_running (camera 2 true) = true /\
  m_nFrames (camera 2 true) = 0 /\
  increasing_from (m_lastTime (camera 2 true))
    (map inv_Time [frame_at 1; frame_at 2]) = true /\
  sample_ok (camera 2 true) full_sample = true /\
  exists d0 d1 c',
    deliver (camera 2 true) [frame_at 1; frame_at 2]
      = Some ([d0; d1], c') /\
    (0 mod m_divisor (camera 2 true) = 0 /\ is_forwarded d0 = false) /\
    (1 mod m_divisor (camera 2 true) <> 0 /\ is_forwarded d1 = true).
Proof.
  repeat (split; [reflexivity|]).
  do 3 eexists. split; [vm_compute; reflexivity|].
  split; split; try reflexivity. discriminate.
Qed.

(** Four good frames at times 1 to 4 with divisor 2. *)
Lemma divisor_cadence_witness :
  (m_running (camera 2 true) = true /\
   m_nFrames (camera 2 true) = 0 /\
   0 < m_divisor (camera 2 true) /\
   Z.of_nat (List.length four_frames) <= INT_MAX /\
   increasing_from (m_lastTime (camera 2 true))
     (map inv_Time four_frames) = true) /\
  exists ds c',
    deliver (camera 2 true) four_frames = Some (ds, c') /\
    List.length ds = List.length four_frames /\
    (forall i inv d,
       nth_error four_frames i = Some inv -> nth_error ds i = Some d ->
       (is_forwarded d = true <->
          (Z.of_nat i + 1) mod m_divisor (camera 2 true) = 0 /\
          sample_ok (camera 2 true) (inv_sample inv) = true) /\
       (is_forwarded d = false -> pushed d = None)) /\
    (m_divisor (camera 2 true) = 1 ->
     forall i inv d,
       nth_error four_frames i = Some inv -> nth_error ds i = Some d ->
       is_forwarded d = sample_ok (camera 2 true) (inv_sample inv)).
Proof.
  assert (h1 : m_running (camera 2 true) = true) by reflexivity.
  assert (h2 : m_nFrames (camera 2 true) = 0) by reflexivity.
  assert (h3 : 0 < m_divisor (camera 2 true)) by (cbn; lia).
  assert (h4 : Z.of_nat (List.length four_frames) <= INT_MAX)
    by (vm_compute; discriminate).
  assert (h5 : increasing_from (m_lastTime (camera 2 true))
                 (map inv_Time four_frames) = true)
    by (vm_compute; reflexivity).
  split; [repeat split; assumption|].
  exact (divisor_cadence_counts_from_one 
           (camera 2 true) four_frames h1 h2 h3 h4 h5).
Defined.





(** A frame delivered to the component as constructed, before [start]. *)
Lemma stopped_frame_witness :
  m_running (constructed 640 480 tt tt) = false /\
  exists d,
    SampleCB (constructed 640 480 tt tt) all_connected
      (double_of_Z 1) full_sample = Some d /\
    returned d = S_OK /\ forwarded d = None /\ pushed d = None /\
    m_nFrames (after d) = m_nFrames (constructed 640 480 tt tt) /\
    m_running (after d) = false /\
    (double_eqb (double_of_Z 1) (m_lastTime (constructed 640 480 tt tt)) = false ->
     after d = set_lastTime (double_of_Z 1) (constructed 640 480 tt tt) /\
     m_lastTime (after d) = double_of_Z 1 /\
     forall b host' pSample',
       is_nan (double_of_Z 1) = false ->
       SampleCB (set_running b (after d)) host'
         (double_of_Z 1) pSample' =
       Some (dropped (set_running b (after d))
               [SampleCB_called; Got_double_frame])).
Proof.
  assert (h1 : m_running (constructed 640 480 tt tt) = false) by reflexivity.
  split; [exact h1|].
  exact (stopped_frame_updates_lastTime_only 
           (constructed 640 480 tt tt) all_connected (double_of_Z 1)
           full_sample h1).
Defined.

(** Only the luminance port connected. *)
Lemma luminance_witness :
  outPort_isConnected luminance_only = true /\
  exists grey,
    sentOut (handleFrame (camera 1 true) luminance_only 0
               (BufferImage 640 480 bgr24 4096)) = Some (0, grey) /\
    undistortions grey = 1%nat.
Proof.
  assert (h1 : outPort_isConnected luminance_only = true) by reflexivity.
  split; [exact h1|].
  exact (luminance_undistorted_exactly_once
           (camera 1 true) luminance_only 0 640 480 4096 h1).
Defined.

(** A 640x480 frame with 320x240 desired gives a 320x240 colour image; a
    320x240 frame is passed on without a resize. *)
Lemma resize_policy_witness :
  (0 < m_desiredWidth (camera 1 true) /\ 0 < m_desiredHeight (camera 1 true) /\
   colorOutPort_isConnected all_connected = true) /\
  (exists color,
     sentColor (handleFrame (camera 1 true) all_connected 0
                  (BufferImage 640 480 bgr24 4096)) = Some (0, color) /\
     width color = 320 /\ height color = 240 /\ resizes color = 1%nat) /\
  (exists color,
     sentColor (handleFrame (camera 1 true) all_connected 0
                  (BufferImage 320 240 bgr24 4096)) = Some (0, color) /\
     width color = 320 /\ height color = 240 /\ resizes color = 0%nat).
Proof.
  assert (h1 : 0 < m_desiredWidth (camera 1 true)) by (cbn; lia).
  assert (h2 : 0 < m_desiredHeight (camera 1 true)) by (cbn; lia).
  assert (h3 : colorOutPort_isConnected all_connected = true) by reflexivity.
  split; [repeat split; assumption|]. split.
  - destruct (resize_policy (camera 1 true) all_connected 0
                (BufferImage 640 480 bgr24 4096) h1 h2 h3)
      as (color & E & Hlarger & _).
    exists color. split; [exact E|].
    destruct Hlarger as (_ & W & H & R); [cbn; lia|]. auto.
  - destruct (resize_policy (camera 1 true) all_connected 0
                (BufferImage 320 240 bgr24 4096) h1 h2 h3)
      as (color & E & _ & Hsmall).
    exists color. split; [exact E|].
    destruct Hsmall as (_ & W & H & R); [cbn; lia|]. auto.
Defined.

End Witnesses.

(* ------------------------------------------------------------------ *)
(** ** Device selection at concrete enumerations *)

Module DeviceExamples.
Import DeviceSelector Concrete.


Example E_FAIL_failed : FAILED E_FAIL = true /\ FAILED S_OK = false.
Proof. split; reflexivity. Qed.

(** The enumerations of the specification: without a desired path the first
    match is taken, with the path of "CamB" it is "CamB". *)
Example select_first_match :
  selectDevice "Cam" EmptyString [camA; camB] = Ok (camA, "CamA"%string).
Proof. vm_compute. reflexivity. Qed.

Example select_by_path :
  selectDevice "Cam" "\\path\\2" [camA; camB] = Ok (camB, "CamB"%string).
Proof. vm_compute. reflexivity. Qed.

(** No desired name: the first enumerated device; nothing enumerated: a throw;
    only an unreadable device enumerated: that device. *)
Example select_without_name :
  selectDevice EmptyString EmptyString [other; camA] = Ok (other, EmptyString).
Proof. vm_compute. reflexivity. Qed.

Example select_from_nothing :
  selectDevice "Cam" EmptyString [] = Throw "No video capture device found".
Proof. reflexivity. Qed.

(** An empty category: no enumerator is created and nothing is thrown; an
    enumerator that yields nothing: the throw. *)
Example select_from_empty_category :
  selectDevice_from "Cam" EmptyString empty_category = None /\
  selectDevice_from "Cam" EmptyString (enumerator [])
  = Some (Throw "No video capture device found").
Proof. split; reflexivity. Qed.

(** A device whose "DevicePath" does not read is compared through the
    buffer as it was found: holding the desired fragment, it is selected
    before "CamB", the device that has that path. *)
Example select_by_stale_path :
  selectDevice "Cam" "\\path\\2" [camA; pathless "CamC" "\\path\\2"; camB]
  = Ok (pathless "CamC" "\\path\\2", "CamC"%string).
Proof. vm_compute. reflexivity. Qed.

Example select_unreadable :
  selectDevice "Cam" EmptyString [unreadable] = Ok (unreadable, EmptyString).
Proof. vm_compute. reflexivity. Qed.

End DeviceExamples.

(* ------------------------------------------------------------------ *)
(** ** The dispatcher over arbitrary sequences of callbacks *)

Section DeliveryFacts.

Context {TimestampSync Undistortion : Type}
  `{!Collaborators TimestampSync Undistortion}.

Implicit Types (c : DirectShowFrameGrabber TimestampSync Undistortion)
  (host : Host) (Time : double) (pSample : IMediaSample).

Lemma same_configuration_refl c : same_configuration c c.
Proof. repeat split. Qed.

Lemma same_configuration_trans c1 c2 c3 :
  same_configuration c1 c2 -> same_configuration c2 c3 ->
  same_configuration c1 c3.
Proof.
  unfold same_configuration. intros H12 H23.
  repeat match goal with H : _ /\ _ |- _ => destruct H end.
  repeat split; congruence.
Qed.

Lemma SampleCB_same_configuration c host Time pSample d :
  SampleCB c host Time pSample = Some d -> same_configuration c (after d).
Proof.
  intros E. pose proof (SampleCB_cases c host Time pSample) as Hc.
  rewrite E in Hc. inversion Hc; subst; cbn; repeat split.
Qed.

Lemma SampleCB_defined c host Time pSample :
  m_divisor c <> 0 -> m_divisor c <> -1 ->
  exists d, SampleCB c host Time pSample = Some d.
Proof.
  intros D0 D1.
  pose proof (c_rem_defined (wrap32 (m_nFrames c + 1)) (m_divisor c) D0 D1).
  pose proof (SampleCB_cases c host Time pSample) as Hc.
  destruct (SampleCB c host Time pSample) as [d|]; [eauto|].
  inversion Hc; congruence.
Qed.

Lemma deliver_configuration invs : forall c ds c',
  deliver c invs = Some (ds, c') ->
  same_configuration c c' /\
  Forall (fun d => same_configuration c (after d) /\ returned d = S_OK) ds.
Proof.
  induction invs as [|i rest IH]; intros c ds c' E; cbn [deliver] in E.
  - injection E as <- <-. split; [apply same_configuration_refl|constructor].
  - destruct (SampleCB c (inv_host i) (inv_Time i) (inv_sample i)) as [d|] eqn:E0;
      [|discriminate].
    destruct (deliver (after d) rest) as [[ds' c'']|] eqn:E1; [|discriminate].
    injection E as <- <-.
    pose proof (SampleCB_same_configuration _ _ _ _ _ E0) as H0.
    destruct (IH _ _ _ E1) as [H1 Hall]. split.
    + eapply same_configuration_trans; eassumption.
    + constructor.
      * split; [exact H0|].
        pose proof (SampleCB_cases c (inv_host i) (inv_Time i) (inv_sample i)) as Hc.
        rewrite E0 in Hc. inversion Hc; reflexivity.
      * eapply Forall_impl; [|exact Hall]. cbn. intros d' [Hs Hr].
        split; [|exact Hr]. eapply same_configuration_trans; eassumption.
Qed.

Lemma deliver_defined invs : forall c,
  m_divisor c <> 0 -> m_divisor c <> -1 ->
  exists ds c', deliver c invs = Some (ds, c') /\
                List.length ds = List.length invs.
Proof.
  induction invs as [|i rest IH]; intros c D0 D1; cbn [deliver].
  - exists [], c. split; reflexivity.
  - destruct (SampleCB_defined c (inv_host i) (inv_Time i) (inv_sample i) D0 D1)
      as [d E0].
    rewrite E0.
    pose proof (SampleCB_same_configuration _ _ _ _ _ E0)
      as (_ & _ & _ & Hd & _).
    destruct (IH (after d)) as (ds & c' & E1 & L); [congruence|congruence|].
    rewrite E1. exists (d :: ds), c'. split; [reflexivity|].
    cbn [List.length]. now rewrite L.
Qed.

(** X1.  Whenever a sequence of callbacks returns, every callback in it
    returned [S_OK], and the negotiated size, the time offset, the divisor,
    the desired size, the upload flag, the undistortion model and the
    running flag are as they were: the callback writes the frame counter,
    the last timestamp and the synchronizer only.  With a divisor that is
    neither 0 nor -1 every sequence does return, with one result for each
    callback; with the other two divisors the remainder can trap. *)
Theorem deliver_keeps_configuration invs c :
  (forall ds c',
     deliver c invs = Some (ds, c') ->
     same_configuration c c' /\
     Forall (fun d => same_configuration c (after d) /\ returned d = S_OK) ds) /\
  (m_divisor c <> 0 -> m_divisor c <> -1 ->
   exists ds c',
     deliver c invs = Some (ds, c') /\
     List.length ds = List.length invs).
Proof.
  split.
  - apply deliver_configuration.
  - apply deliver_defined.
Qed.

(** X2.  On a running component with a positive divisor the frame counter
    advances by one for every invocation whose timestamp differs from the one
    delivered just before it, and by nothing for a repetition, whatever the
    order of the timestamps and whatever becomes of the frames. *)
Theorem counter_counts_fresh_frames invs : forall c,
  m_running c = true ->
  0 < m_divisor c ->
  0 <= m_nFrames c ->
  m_nFrames c + Z.of_nat (List.length invs) <= INT_MAX ->
  exists ds c',
    deliver c invs = Some (ds, c') /\
    List.length ds = List.length invs /\
    m_nFrames c' =
    m_nFrames c + Z.of_nat (fresh_frames (m_lastTime c) (map inv_Time invs)).
Proof.
  induction invs as [|i rest IH]; intros c R Hd Hn Hlen.
  - exists [], c. cbn. split; [reflexivity|]. split; [reflexivity|lia].
  - cbn [List.length] in Hlen. cbn [map fresh_frames deliver].
    destruct (double_eqb (inv_Time i) (m_lastTime c)) eqn:E.
    + rewrite SampleCB_duplicate by assumption. cbn [after dropped].
      destruct (IH c R Hd Hn) as (ds & c' & E1 & L & N); [lia|].
      rewrite E1. eexists _, c'. split; [reflexivity|].
      split; [cbn; now rewrite L|exact N].
    + destruct (SampleCB_running_fresh c (inv_host i) (inv_Time i)
                  (inv_sample i) R Hd)
        as (d0 & E0 & _ & Hn' & Hl' & R' & D' & _); [lia|exact E|].
      rewrite E0.
      destruct (IH (after d0)) as (ds & c' & E1 & L & N);
        [exact R'|lia|lia|lia|].
      rewrite E1. eexists _, c'. split; [reflexivity|].
      split; [cbn; now rewrite L|]. rewrite N, Hn', Hl'. lia.
Qed.

Lemma div_succ (k d : Z) :
  0 < d -> 0 <= k ->
  (k + 1) / d = k / d + (if (k + 1) mod d =? 0 then 1 else 0).
Proof.
  intros Hd Hk.
  destruct (Z.eqb_spec ((k + 1) mod d) 0) as [E|E];
    Z.div_mod_to_equations; nia.
Qed.

Lemma deliver_forwarded_count invs : forall c,
  m_running c = true ->
  0 < m_divisor c ->
  0 <= m_nFrames c ->
  m_nFrames c + Z.of_nat (List.length invs) <= INT_MAX ->
  increasing_from (m_lastTime c) (map inv_Time invs) = true ->
  Forall (fun i => sample_ok c (inv_sample i) = true) invs ->
  exists ds c',
    deliver c invs = Some (ds, c') /\
    Z.of_nat (List.length (filter is_forwarded ds)) =
    (m_nFrames c + Z.of_nat (List.length invs)) / m_divisor c
    - m_nFrames c / m_divisor c.
Proof.
  induction invs as [|i rest IH]; intros c R Hd Hn Hlen Hinc Hok.
  - exists [], c. cbn. split; [reflexivity|]. rewrite Z.add_0_r. lia.
  - cbn [map increasing_from] in Hinc. apply andb_true_iff in Hinc as [Hlt Hinc].
    cbn [List.length] in Hlen. inversion Hok as [|? ? Hok0 Hok']; subst.
    destruct (SampleCB_running_fresh c (inv_host i) (inv_Time i)
                (inv_sample i) R Hd)
      as (d0 & E0 & _ & Hn' & Hl' & R' & D' & W' & H' & Hf & _);
      [lia|now apply double_ltb_not_eqb|].
    destruct (IH (after d0)) as (ds & c' & E1 & N);
      [exact R'|lia|lia|lia|now rewrite Hl'| |].
    { eapply Forall_impl; [|exact Hok']. cbn. intros a Ha.
      now rewrite (sample_ok_ext c (after d0)). }
    exists (d0 :: ds), c'. cbn [deliver]. rewrite E0, E1.
    split; [reflexivity|]. cbn [filter].
    rewrite Hok0, andb_true_r in Hf. rewrite Hn', D' in N.
    pose proof (div_succ (m_nFrames c) (m_divisor c) Hd Hn) as Hdiv.
    cbn [List.length].
    replace (m_nFrames c + Z.of_nat (S (List.length rest)))
      with (m_nFrames c + 1 + Z.of_nat (List.length rest)) by lia.
    rewrite Hf. revert Hdiv.
    destruct ((m_nFrames c + 1) mod m_divisor c =? 0); intros Hdiv;
      cbn [List.length]; lia.
Qed.

(** X3.  A running component with a positive divisor and its counter at
    zero receives [n] frames, fewer than 2^31, with good buffers and strictly
    increasing timestamps, the first above the stored last timestamp.  Then
    every call returns and exactly [n / divisor] (rounded down) of the
    frames are forwarded to the frame processor. *)
Theorem forwarded_frames_are_n_over_divisor c invs :
  m_running c = true ->
  m_nFrames c = 0 ->
  0 < m_divisor c ->
  Z.of_nat (List.length invs) <= INT_MAX ->
  increasing_from (m_lastTime c) (map inv_Time invs) = true ->
  Forall (fun i => sample_ok c (inv_sample i) = true) invs ->
  exists ds c',
    deliver c invs = Some (ds, c') /\
    Z.of_nat (List.length (filter is_forwarded ds)) =
    Z.of_nat (List.length invs) / m_divisor c.
Proof.
  intros R Hn Hd Hlen Hinc Hok.
  destruct (deliver_forwarded_count invs c R Hd) as (ds & c' & E & N);
    [lia|lia|exact Hinc|exact Hok|].
  exists ds, c'. split; [exact E|].
  rewrite N, Hn, Z.add_0_l, Z.div_0_l by lia. lia.
Qed.

(** X4.  The timestamp synchronizer is consulted for forwarded frames only:
    after any delivery its state is the initial one fed with the native
    times of exactly the forwarded frames, in order.  Duplicates, frames seen
    while stopped, frames skipped by the divisor and frames with a bad buffer
    never reach it. *)
Theorem synchronizer_sees_forwarded_frames_only invs : forall c ds c',
  deliver c invs = Some (ds, c') ->
  m_syncer c' = fed (m_syncer c) (forwarded_times invs ds).
Proof.
  induction invs as [|i rest IH]; intros c ds c' E; cbn [deliver] in E.
  - injection E as <- <-. reflexivity.
  - destruct (SampleCB c (inv_host i) (inv_Time i) (inv_sample i)) as [d|] eqn:E0;
      [|discriminate].
    destruct (deliver (after d) rest) as [[ds' c'']|] eqn:E1; [|discriminate].
    injection E as <- <-. rewrite (IH _ _ _ E1).
    unfold forwarded_times. cbn [combine filter snd fst].
    pose proof (SampleCB_cases c (inv_host i) (inv_Time i) (inv_sample i)) as Hc.
    rewrite E0 in Hc. inversion Hc; subst; cbn; reflexivity.
Qed.

(** X5.  A forwarded frame wraps the capture buffer at the negotiated size in
    the 24-bit BGR format, and, for a time offset between -2147 and 2147
    milliseconds, its timestamp is the synchronized local time of the native
    timestamp shifted by exactly that many milliseconds (in nanoseconds,
    modulo 2^64). *)
Theorem forwarded_frame_is_stamped_with_offset c host Time pSample d t img :
  SampleCB c host Time pSample = Some d ->
  forwarded d = Some (t, img) ->
  -2147 <= m_timeOffset c <= 2147 ->
  img = BufferImage (m_sampleWidth c) (m_sampleHeight c) bgr24 (pBuffer pSample) /\
  t = (fst (convertNativeToLocal (m_syncer c) Time)
       + 1000000 * m_timeOffset c) mod 2 ^ 64 /\
  pushed d = Some (handleFrame (after d) host t img).
Proof.
  intros E F Hoff. pose proof (SampleCB_cases c host Time pSample) as Hc.
  rewrite E in Hc. inversion Hc; subst; cbn in F; try discriminate.
  injection F as <- <-. split; [reflexivity|]. split; [|reflexivity].
  unfold stamped, wrap64u. rewrite wrap32_fits; [reflexivity|].
  unfold fits_int, INT_MIN, INT_MAX. lia.
Qed.

End DeliveryFacts.

(* ------------------------------------------------------------------ *)
(** ** What the Frame Processor pushes *)

Section ProcessorFacts.

Context {TimestampSync Undistortion : Type}
  `{!Collaborators TimestampSync Undistortion}.

Implicit Types (c : DirectShowFrameGrabber TimestampSync Undistortion)
  (host : Host) (Time : double) (pSample : IMediaSample).

Lemma toGrey_facts (img : Image Undistortion) :
  undistorters (toGrey img) = undistorters img /\
  resizes (toGrey img) = resizes img /\
  allocated (toGrey img) = true.
Proof. unfold toGrey. destruct (on_gpu img); cbn; auto. Qed.

Lemma uploaded_facts c host (img : Image Undistortion) :
  undistorters (uploaded c host img) = undistorters img /\
  resizes (uploaded c host img) = resizes img /\
  undistortions (uploaded c host img) = undistortions img /\
  width (uploaded c host img) = width img /\
  height (uploaded c host img) = height img.
Proof. unfold uploaded. destruct (_ && _); cbn; auto. Qed.

(** The three sends of [handleFrame], one by one. *)
Lemma handleFrame_sends c host utTime (bufferImage : Image Undistortion) :
  let b := uploaded c host bufferImage in
  let resized := Resize (m_desiredWidth c) (m_desiredHeight c) b in
  let u := m_undistorter c in
  let s := handleFrame c host utTime bufferImage in
  sentRAW s = (if outPortRAW_isConnected host
               then Some (utTime, Clone b) else None) /\
  sentColor s =
    (if colorOutPort_isConnected host
     then Some (utTime,
                if larger_than_desired c bufferImage
                then Undistort u resized else Undistort u b)
     else None) /\
  sentOut s =
    (if outPort_isConnected host
     then Some (utTime,
                if colorOutPort_isConnected host
                then toGrey (if larger_than_desired c bufferImage
                             then Undistort u resized else Undistort u b)
                else Undistort u
                       (toGrey (if larger_than_desired c bufferImage
                                then resized else b)))
     else None).
Proof.
  cbn zeta. unfold handleFrame, larger_than_desired.
  destruct (uploaded_facts c host bufferImage) as (_ & _ & _ & Ew & Eh).
  rewrite Ew, Eh.
  destruct (outPortRAW_isConnected host), (colorOutPort_isConnected host),
    (outPort_isConnected host),
    ((0 <? m_desiredWidth c) && (0 <? m_desiredHeight c) &&
     ((m_desiredWidth c <? width bufferImage) ||
      (m_desiredHeight c <? height bufferImage)));
    cbn; auto.
Qed.

(** X6.  The raw output is a copy of the frame as captured: whenever the raw
    port is connected it is pushed with the frame's timestamp, it has the
    frame's size, and neither a resize nor an undistortion was applied to it,
    however large the frame is and whatever else is connected; when the port
    is not connected nothing is pushed on it. *)
Theorem raw_output_is_untouched_copy c host utTime w h buffer :
  let s := handleFrame c host utTime (BufferImage w h bgr24 buffer) in
  (outPortRAW_isConnected host = true ->
   exists raw,
     sentRAW s = Some (utTime, raw) /\
     allocated raw = true /\
     width raw = w /\ height raw = h /\
     resizes raw = 0%nat /\ undistortions raw = 0%nat) /\
  (outPortRAW_isConnected host = false -> sentRAW s = None).
Proof.
  cbn zeta.
  destruct (handleFrame_sends c host utTime (BufferImage w h bgr24 buffer))
    as (Hraw & _ & _).
  destruct (uploaded_facts c host (BufferImage w h bgr24 buffer))
    as (_ & Er & Eu & Ew & Eh).
  split; intros Hc; rewrite Hraw, Hc; [|reflexivity].
  eexists. split; [reflexivity|]. cbn. rewrite Er, Eu, Ew, Eh. auto.
Qed.

(** X7.  The luminance output follows the resize policy of the colour
    output whether or not the colour port is connected: it is converted from
    the resized frame exactly when the desired size is positive and the frame
    is wider or higher than desired, and from the frame itself otherwise. *)
Theorem luminance_follows_resize_policy c host utTime w h buffer :
  outPort_isConnected host = true ->
  exists grey,
    sentOut (handleFrame c host utTime (BufferImage w h bgr24 buffer))
    = Some (utTime, grey) /\
    resizes grey =
      (if ((0 <? m_desiredWidth c) && (0 <? m_desiredHeight c)) &&
          ((m_desiredWidth c <? w) || (m_desiredHeight c <? h))
       then 1%nat else 0%nat).
Proof.
  intros Hout.
  destruct (handleFrame_sends c host utTime (BufferImage w h bgr24 buffer))
    as (_ & _ & Hgrey).
  destruct (uploaded_facts c host (BufferImage w h bgr24 buffer))
    as (_ & Er & _).
  rewrite Hgrey, Hout. eexists. split; [reflexivity|].
  unfold larger_than_desired. cbn [width height].
  destruct (colorOutPort_isConnected host);
    destruct ((0 <? m_desiredWidth c) && (0 <? m_desiredHeight c) &&
              ((m_desiredWidth c <? w) || (m_desiredHeight c <? h)));
    cbn;
    repeat match goal with
           | |- context [toGrey ?i] =>
             let H := fresh in
             destruct (toGrey_facts i) as (_ & H & _); rewrite H; clear H
           end; cbn; rewrite ?Er; reflexivity.
Qed.

(** What every image pushed for a frame from the capture buffer satisfies. *)
Lemma handleFrame_images c host utTime w h buffer :
  Forall (fun i => allocated i = true /\
                   Forall (eq (m_undistorter c)) (undistorters i))
    (images (handleFrame c host utTime (BufferImage w h bgr24 buffer))) /\
  Forall (eq utTime)
    (stamps (handleFrame c host utTime (BufferImage w h bgr24 buffer))).
Proof.
  destruct (handleFrame_sends c host utTime (BufferImage w h bgr24 buffer))
    as (Hraw & Hcol & Hgrey).
  destruct (uploaded_facts c host (BufferImage w h bgr24 buffer))
    as (Eu & _).
  cbn [undistorters] in Eu.
  unfold images, stamps. rewrite Hraw, Hcol, Hgrey.
  generalize dependent (uploaded c host (BufferImage w h bgr24 buffer)).
  intros b _ _ _ Eb.
  set (u := m_undistorter c).
  assert (Hx : forall x : Image Undistortion,
             undistorters x = [] ->
             let good i := allocated i = true /\ Forall (eq u) (undistorters i) in
             good (Clone x) /\ good (Undistort u x) /\
             good (toGrey (Undistort u x)) /\ good (Undistort u (toGrey x))).
  { intros x Ex. cbn zeta.
    destruct (toGrey_facts x) as (T1 & _ & T2).
    destruct (toGrey_facts (Undistort u x)) as (T3 & _ & T4).
    cbn [undistorters allocated]. rewrite T1, T3, T4. cbn [undistorters].
    rewrite Ex. repeat split; auto. }
  destruct (Hx b Eb) as (G1 & G2 & G3 & G4).
  destruct (Hx (Resize (m_desiredWidth c) (m_desiredHeight c) b) Eb)
    as (_ & G6 & G7 & G8).
  destruct (outPortRAW_isConnected host), (colorOutPort_isConnected host),
    (outPort_isConnected host),
    (larger_than_desired c (BufferImage w h bgr24 buffer));
    cbn [app]; split;
    repeat match goal with
           | |- Forall _ (_ :: _) => constructor
           | |- Forall _ [] => constructor
           | |- eq _ _ => reflexivity
           | |- _ /\ _ => assumption
           end.
Qed.

(** X8.  No measurement pushed for a frame holds the frame built on the
    capture buffer itself: every pushed image is the product of a clone, a
    resize, an undistortion or a colour conversion; and every measurement
    pushed for the frame carries the frame's timestamp. *)
Theorem pushed_images_never_alias_the_buffer c host Time pSample d sent :
  SampleCB c host Time pSample = Some d ->
  pushed d = Some sent ->
  Forall (fun i => allocated i = true) (images sent) /\
  exists t img, forwarded d = Some (t, img) /\ Forall (eq t) (stamps sent).
Proof.
  intros E P. pose proof (SampleCB_cases c host Time pSample) as Hc.
  rewrite E in Hc. inversion Hc; subst; cbn in P; try discriminate.
  injection P as <-. cbn [forwarded].
  destruct (handleFrame_images (synced Time c) host (stamped Time c)
              (m_sampleWidth c) (m_sampleHeight c) (pBuffer pSample))
    as (Himg & Hst).
  split.
  - eapply Forall_impl; [|exact Himg]. cbn. tauto.
  - eauto.
Qed.

Lemma SampleCB_undistorters c host Time pSample d sent :
  SampleCB c host Time pSample = Some d ->
  pushed d = Some sent ->
  Forall (fun i => Forall (eq (m_undistorter c)) (undistorters i)) (images sent).
Proof.
  intros E P. pose proof (SampleCB_cases c host Time pSample) as Hc.
  rewrite E in Hc. inversion Hc; subst; cbn in P; try discriminate.
  injection P as <-.
  destruct (handleFrame_images (synced Time c) host (stamped Time c)
              (m_sampleWidth c) (m_sampleHeight c) (pBuffer pSample))
    as (Himg & _).
  eapply Forall_impl; [|exact Himg]. cbn. tauto.
Qed.

Lemma deliver_undistorters invs : forall c ds c',
  deliver c invs = Some (ds, c') ->
  m_undistorter c' = m_undistorter c /\
  Forall (fun i => Forall (eq (m_undistorter c)) (undistorters i))
    (all_pushed ds).
Proof.
  induction invs as [|i rest IH]; intros c ds c' E; cbn [deliver] in E.
  - injection E as <- <-. split; [reflexivity|constructor].
  - destruct (SampleCB c (inv_host i) (inv_Time i) (inv_sample i)) as [d|] eqn:E0;
      [|discriminate].
    destruct (deliver (after d) rest) as [[ds' c'']|] eqn:E1; [|discriminate].
    injection E as <- <-.
    destruct (SampleCB_same_configuration _ _ _ _ _ E0)
      as (_ & _ & _ & _ & _ & _ & _ & Hu & _).
    destruct (IH _ _ _ E1) as [Hu' Hall]. rewrite Hu in Hu', Hall.
    split; [exact Hu'|].
    unfold all_pushed. cbn [flat_map]. apply Forall_app. split; [|exact Hall].
    destruct (pushed d) as [sent|] eqn:P; [|constructor].
    eapply SampleCB_undistorters; eassumption.
Qed.

(** X9.  An intrinsics update takes effect with the next frame and stays in
    effect: in every image pushed during any delivery after
    [newIntrinsicsPush u], each undistortion applied used the model [u], and
    the component still holds [u] afterwards. *)
Theorem intrinsics_update_takes_effect u c invs ds c' :
  deliver (newIntrinsicsPush u c) invs = Some (ds, c') ->
  m_undistorter c' = u /\
  Forall (fun i => Forall (eq u) (undistorters i)) (all_pushed ds).
Proof.
  intros E. exact (deliver_undistorters invs _ _ _ E).
Qed.

(** X10.  The intrinsics pull port answers with the matrix of the model
    pushed last, stamped with the time of the query, whatever frames were
    delivered since the push. *)
Theorem getIntrinsic_reports_latest_push
    {Matrix : Type} (getMatrix : Undistortion -> Matrix)
    u1 u2 c invs ds c' t :
  deliver (newIntrinsicsPush u2 (newIntrinsicsPush u1 c)) invs = Some (ds, c') ->
  getIntrinsic getMatrix c' t = (t, getMatrix u2).
Proof.
  intros E. destruct (deliver_undistorters invs _ _ _ E) as [Hu _].
  unfold getIntrinsic. now rewrite Hu.
Qed.

End ProcessorFacts.

(* ------------------------------------------------------------------ *)
(** ** The format negotiation loop in general *)

Lemma float_ltb_key (a b : spec_float) :
  SFltb a b = true <->
  is_nan a = false /\ is_nan b = false /\ key_lt (float_key a) (float_key b).
Proof.
  unfold SFltb, SFcompare, key_lt.
  destruct a as [s|s| |s m e], b as [s'|s'| |s' m' e']; cbn;
    try (destruct s); try (destruct s'); cbn;
    try (split; [discriminate|intros (_ & _ & K); lia]);
    try (split; [discriminate|intros (K & _); discriminate]);
    try (split; [discriminate|intros (_ & K & _); discriminate]);
    try (split; [intros _; repeat split; lia|reflexivity]).
  - (* both negative *)
    change (Pos.compare_cont Eq m m') with (Pos.compare m m').
    destruct (Z.compare_spec e e'); destruct (Pos.compare_spec m m'); cbn;
      (split; [try discriminate; intros _; repeat split; lia
              |try reflexivity; intros (_ & _ & K); lia]).
  - (* both positive *)
    change (Pos.compare_cont Eq m m') with (Pos.compare m m').
    destruct (Z.compare_spec e e'); destruct (Pos.compare_spec m m'); cbn;
      (split; [try discriminate; intros _; repeat split; lia
              |try reflexivity; intros (_ & _ & K); lia]).
Qed.

Lemma float_ltb_trans (a b c : spec_float) :
  SFltb a b = true -> SFltb b c = true -> SFltb a c = true.
Proof.
  rewrite !float_ltb_key. unfold key_lt.
  intros (Na & Nb & H1) (_ & Nc & H2). repeat split; auto. lia.
Qed.

Lemma float_ltb_irrefl (a : spec_float) : SFltb a a = false.
Proof.
  destruct (SFltb a a) eqn:E; [|reflexivity].
  apply float_ltb_key in E. unfold key_lt in E. destruct E as (_ & _ & H). lia.
Qed.

Module NegotiationFacts.
Import FormatNegotiation NegotiationLoop.

Section Loop.

Variables dw dh : Z.

Lemma is_RGB24_true m : is_RGB24 m = true <-> subtype m = MEDIASUBTYPE_RGB24.
Proof.
  unfold is_RGB24, GUID_eqb.
  destruct (GUID_eq_dec (subtype m) MEDIASUBTYPE_RGB24); split;
    congruence.
Qed.

(** One iteration, by what it does. *)
Lemma neg_step_spec st m :
  neg_step dw dh st m =
  if eligible dw dh m &&
     (is_RGB24 m || float_ltb (fCurrentFps st) (fps_of (pbFormat m)))
  then {| currentFormat := Some m; fCurrentFps := fps_of (pbFormat m) |}
  else st.
Proof.
  unfold neg_step, eligible, is_RGB24.
  destruct (GUID_eqb (majortype m) MEDIATYPE_Video);
    destruct (GUID_eqb (formattype m) FORMAT_VideoInfo); cbn; reflexivity.
Qed.

Lemma run_origin caps : forall st s,
  currentFormat (run dw dh st caps) = Some s ->
  currentFormat st = Some s \/ (In s caps /\ eligible dw dh s = true).
Proof.
  induction caps as [|m rest IH]; intros st s E; cbn in E; [now left|].
  destruct (IH _ _ E) as [H|[H1 H2]].
  - rewrite neg_step_spec in H.
    destruct (eligible dw dh m) eqn:El; cbn in H; [|now left].
    destruct (is_RGB24 m || _); cbn in H; [|now left].
    injection H as <-. right. split; [now left|assumption].
  - right. split; [now right|assumption].
Qed.

Lemma run_keeps_set caps : forall st,
  currentFormat st <> None -> currentFormat (run dw dh st caps) <> None.
Proof.
  induction caps as [|m rest IH]; intros st H; cbn; [exact H|].
  apply IH. rewrite neg_step_spec.
  destruct (eligible dw dh m && _); [discriminate|exact H].
Qed.

Lemma run_sets_on_RGB24 caps : forall st x,
  In x caps -> eligible dw dh x = true -> is_RGB24 x = true ->
  currentFormat (run dw dh st caps) <> None.
Proof.
  induction caps as [|m rest IH]; intros st x Hin El Rgb; [contradiction|].
  cbn. destruct Hin as [->|Hin].
  - apply run_keeps_set. rewrite neg_step_spec, El, Rgb. discriminate.
  - eapply IH; eassumption.
Qed.

Lemma run_nothing_eligible caps : forall st,
  (forall x, In x caps -> eligible dw dh x = false) -> run dw dh st caps = st.
Proof.
  induction caps as [|m rest IH]; intros st H; cbn; [reflexivity|].
  rewrite neg_step_spec, (H m (or_introl eq_refl)). cbn.
  apply IH. intros x Hx. apply H. now right.
Qed.

(** X11.  The format the loop leaves in force is always one of the
    advertised capabilities, a video format with a [VIDEOINFOHEADER] and of
    the desired size (a desired dimension of zero or less matches any).  When
    no capability is such, no format is set at all; when one of them is
    RGB24, some format is set. *)
Theorem negotiated_format_is_eligible caps :
  (forall s, selectedFormat dw dh caps = Some s ->
     In s caps /\
     majortype s = MEDIATYPE_Video /\ formattype s = FORMAT_VideoInfo /\
     (dw <= 0 \/ biWidth (pbFormat s) = dw) /\
     (dh <= 0 \/ biHeight (pbFormat s) = dh)) /\
  ((forall x, In x caps -> eligible dw dh x = false) ->
   selectedFormat dw dh caps = None) /\
  (forall x, In x caps -> eligible dw dh x = true ->
     subtype x = MEDIASUBTYPE_RGB24 ->
     selectedFormat dw dh caps <> None).
Proof.
  unfold selectedFormat, negotiate. fold (run dw dh neg_init caps).
  split; [|split].
  - intros s E. destruct (run_origin caps _ _ E) as [H|[Hin El]];
      [discriminate|].
    split; [exact Hin|].
    unfold eligible, size_matches, GUID_eqb in El.
    destruct (GUID_eq_dec (majortype s) MEDIATYPE_Video); [|discriminate].
    destruct (GUID_eq_dec (formattype s) FORMAT_VideoInfo); [|discriminate].
    cbn in El. apply andb_true_iff in El as [Hw Hh].
    apply orb_true_iff in Hw, Hh. rewrite Z.leb_le, Z.eqb_eq in Hw, Hh.
    auto.
  - intros H. now rewrite run_nothing_eligible.
  - intros x Hin El Rgb. eapply run_sets_on_RGB24; try eassumption.
    now apply is_RGB24_true.
Qed.

(** No capability seen so far is faster than the current frame rate. *)
Lemma run_dominates caps : forall st,
  (forall x, In x caps -> eligible dw dh x = true -> is_RGB24 x = false) ->
  coherent st ->
  coherent (run dw dh st caps) /\
  (forall y, float_ltb (fCurrentFps st) y = false ->
             float_ltb (fCurrentFps (run dw dh st caps)) y = false) /\
  (forall x, In x caps -> eligible dw dh x = true ->
     float_ltb (fCurrentFps (run dw dh st caps)) (fps_of (pbFormat x)) = false).
Proof.
  induction caps as [|m rest IH]; intros st Hno Hco; cbn [run fold_left].
  - repeat split; auto. intros x [].
  - assert (Hstep :
      coherent (neg_step dw dh st m) /\
      (forall y, float_ltb (fCurrentFps st) y = false ->
                 float_ltb (fCurrentFps (neg_step dw dh st m)) y = false) /\
      (eligible dw dh m = true ->
       float_ltb (fCurrentFps (neg_step dw dh st m)) (fps_of (pbFormat m))
       = false)).
    { rewrite neg_step_spec.
      destruct (eligible dw dh m) eqn:El; cbn [andb].
      2:{ repeat split; auto. discriminate. }
      rewrite (Hno m (or_introl eq_refl) El). cbn [orb].
      destruct (float_ltb (fCurrentFps st) (fps_of (pbFormat m))) eqn:Lt.
      - cbn. split; [reflexivity|]. split.
        + intros y Hy. destruct (float_ltb (fps_of (pbFormat m)) y) eqn:Lt';
            [|reflexivity].
          unfold float_ltb in *.
          rewrite (float_ltb_trans _ _ _ Lt Lt') in Hy. discriminate.
        + intros _. apply float_ltb_irrefl.
      - repeat split; auto. }
    destruct Hstep as (Hco' & Hmono & Hm).
    destruct (IH (neg_step dw dh st m)) as (Hco'' & Hmono' & Hall);
      [intros x Hx; apply Hno; now right|exact Hco'|].
    fold (run dw dh (neg_step dw dh st m) rest).
    split; [exact Hco''|]. split.
    + intros y Hy. apply Hmono', Hmono, Hy.
    + intros x [<-|Hx] El; [apply Hmono', Hm, El|apply Hall; assumption].
Qed.

(** X12.  When none of the capabilities of the desired size is RGB24, the
    loop ends on a capability of the desired size whose frame rate no other
    such capability exceeds; if it ends without a format, none of them has a
    frame rate above zero. *)
Theorem fastest_format_wins_without_RGB24 caps :
  (forall x, In x caps -> eligible dw dh x = true ->
     subtype x <> MEDIASUBTYPE_RGB24) ->
  match selectedFormat dw dh caps with
  | Some s =>
    In s caps /\ eligible dw dh s = true /\
    forall x, In x caps -> eligible dw dh x = true ->
      float_ltb (fps_of (pbFormat s)) (fps_of (pbFormat x)) = false
  | None =>
    forall x, In x caps -> eligible dw dh x = true ->
      float_ltb (S754_zero false) (fps_of (pbFormat x)) = false
  end.
Proof.
  intros Hno. unfold selectedFormat, negotiate. fold (run dw dh neg_init caps).
  destruct (run_dominates caps neg_init) as (Hco & _ & Hall).
  { intros x Hin El. destruct (is_RGB24 x) eqn:R; [|reflexivity].
    apply is_RGB24_true in R. now destruct (Hno x Hin El). }
  { reflexivity. }
  unfold coherent in Hco.
  destruct (currentFormat (run dw dh neg_init caps)) as [s|] eqn:E.
  - destruct (run_origin caps _ _ E) as [H|[Hin El]]; [discriminate|].
    split; [exact Hin|]. split; [exact El|].
    intros x Hx Elx. rewrite <- Hco. now apply Hall.
  - intros x Hx Elx. rewrite <- Hco. now apply Hall.
Qed.

(** The earlier loop once a format is set: the first RGB24 capability of
    the desired size replaces it and ends the loop. *)
Lemma legacy_after_set caps : forall cur,
  negotiate_legacy dw dh caps true (Some cur) =
  match find (wanted dw dh) caps with Some f => Some f | None => Some cur end.
Proof.
  induction caps as [|m rest IH]; intros cur; cbn [negotiate_legacy find];
    [reflexivity|].
  unfold wanted, eligible, is_RGB24.
  destruct (GUID_eqb (majortype m) MEDIATYPE_Video);
    destruct (GUID_eqb (formattype m) FORMAT_VideoInfo); cbn;
    try apply IH.
  destruct (size_matches dw dh (pbFormat m)); cbn; [|apply IH].
  destruct (GUID_eqb (subtype m) MEDIASUBTYPE_RGB24); [reflexivity|apply IH].
Qed.

(** The earlier loop from the start. *)
Lemma legacy_from_start caps :
  negotiate_legacy dw dh caps false None = None /\
  (forall x, In x caps -> eligible dw dh x = false) \/
  exists before first rest,
    caps = before ++ first :: rest /\
    (forall x, In x before -> eligible dw dh x = false) /\
    eligible dw dh first = true /\
    negotiate_legacy dw dh caps false None =
    match find (wanted dw dh) rest with Some f => Some f | None => Some first end.
Proof.
  induction caps as [|m rest IH]; [left; split; [reflexivity|intros x []]|].
  destruct (eligible dw dh m) eqn:El.
  - right. exists [], m, rest. split; [reflexivity|].
    split; [intros x []|]. split; [exact El|].
    cbn [negotiate_legacy]. unfold eligible in El.
    apply andb_true_iff in El as [El Hs]. apply andb_true_iff in El as [H1 H2].
    rewrite H1, H2, Hs. cbn. apply legacy_after_set.
  - assert (Hskip : negotiate_legacy dw dh (m :: rest) false None
                    = negotiate_legacy dw dh rest false None).
    { cbn [negotiate_legacy]. unfold eligible in El.
      destruct (GUID_eqb (majortype m) MEDIATYPE_Video);
        destruct (GUID_eqb (formattype m) FORMAT_VideoInfo); cbn in *;
        try reflexivity. now rewrite El. }
    destruct IH as [[E Hno]|(before & first & rest' & -> & Hno & Elf & E)].
    + left. split; [now rewrite Hskip|].
      intros x [<-|Hx]; [exact El|now apply Hno].
    + right. exists (m :: before), first, rest'.
      split; [reflexivity|]. split.
      * intros x [<-|Hx]; [exact El|now apply Hno].
      * split; [exact Elf|]. now rewrite Hskip.
Qed.

(** X13.  The earlier variant of the loop does prefer RGB24: whenever an
    RGB24 capability of the desired size is advertised it ends on such a
    capability, and otherwise on the first capability of the desired size,
    if any. *)
Theorem legacy_negotiation_prefers_RGB24 caps :
  ((exists x, In x caps /\ eligible dw dh x = true /\
              subtype x = MEDIASUBTYPE_RGB24) ->
   exists f,
     negotiate_legacy dw dh caps false None = Some f /\
     In f caps /\ eligible dw dh f = true /\
     subtype f = MEDIASUBTYPE_RGB24) /\
  ((forall x, In x caps -> eligible dw dh x = true ->
      subtype x <> MEDIASUBTYPE_RGB24) ->
   negotiate_legacy dw dh caps false None = find (eligible dw dh) caps).
Proof.
  assert (Hwanted : forall l f, find (wanted dw dh) l = Some f ->
            In f l /\ eligible dw dh f = true /\
            subtype f = MEDIASUBTYPE_RGB24).
  { intros l f E. apply find_some in E as [Hin W]. unfold wanted in W.
    apply andb_true_iff in W as [El R]. apply is_RGB24_true in R. auto. }
  assert (Hfind : forall before first rest,
            (forall x, In x before -> eligible dw dh x = false) ->
            eligible dw dh first = true ->
            find (eligible dw dh) (before ++ first :: rest) = Some first).
  { induction before as [|b before IHb]; intros first rest Hno El; cbn.
    - now rewrite El.
    - rewrite (Hno b (or_introl eq_refl)). apply IHb; [|exact El].
      intros x Hx. apply Hno. now right. }
  split.
  - intros (x & Hin & El & Rgb).
    destruct (legacy_from_start caps)
      as [[_ Hno]|(before & first & rest & -> & Hno & Elf & E)].
    { rewrite (Hno x Hin) in El. discriminate. }
    rewrite E. destruct (find (wanted dw dh) rest) as [f|] eqn:F.
    + destruct (Hwanted _ _ F) as (Hf & Elf' & Rf).
      exists f. split; [reflexivity|]. split; [|auto].
      apply in_or_app. right. now right.
    + exists first. split; [reflexivity|].
      split; [apply in_or_app; right; now left|]. split; [exact Elf|].
      apply in_app_or in Hin as [Hin|[<-|Hin]]; [|exact Rgb|].
      * rewrite (Hno x Hin) in El. discriminate.
      * pose proof (find_none _ _ F x Hin) as W. unfold wanted in W.
        rewrite El in W. cbn in W.
        apply is_RGB24_true in Rgb. congruence.
  - intros Hno.
    destruct (legacy_from_start caps)
      as [[E Hnone]|(before & first & rest & -> & Hb & Elf & E)].
    + rewrite E. symmetry.
      destruct (find (eligible dw dh) caps) as [f|] eqn:F; [|reflexivity].
      apply find_some in F as [Hin El]. rewrite (Hnone f Hin) in El.
      discriminate.
    + rewrite E, Hfind by assumption.
      destruct (find (wanted dw dh) rest) as [f|] eqn:F; [|reflexivity].
      destruct (Hwanted _ _ F) as (Hf & Elf' & Rf).
      destruct (Hno f); auto. apply in_or_app. right. now right.
Qed.

End Loop.

End NegotiationFacts.

(* ------------------------------------------------------------------ *)
(** ** Building the capture graph *)

Module GraphBuilderFacts.
Import DeviceSelector FormatNegotiation NegotiationLoop GraphBuilder
  GraphBuilderTerms.

Lemma check_ok hr what : check hr what = Ok tt <-> FAILED hr = false.
Proof. unfold check. destruct (FAILED hr); split; congruence. Qed.

Ltac step_call :=
  match goal with
  | |- context [SUCCEEDED ?hr] =>
    unfold SUCCEEDED at 1; destruct (FAILED hr) eqn:?; cbn [negb bind]
  | |- context [check ?hr ?what] =>
    unfold check at 1; destruct (FAILED hr) eqn:?; cbn [bind]
  end.

(** [initGraph] unfolded along its successful path. *)
Lemma initGraph_with_ok have name path dw dh settings cs g :
  initGraph_with have name path dw dh settings cs = Ok g <->
  exists m cam,
    selectDevice name path (monikers cs) = Ok (m, cam) /\
    Forall (fun hr => FAILED hr = false)
      (checked_calls cs m (negotiated dw dh cs)) /\
    supported (ConnectedMediaType cs (negotiated dw dh cs)) = true /\
    g = {| selectedMoniker := m; selectedCamera := cam;
           formatSet := negotiated dw dh cs;
           grabberOneShot := false; grabberBufferSamples := false;
           grabberCallbackMethod := 0;
           grabberMediaType := (MEDIATYPE_Video, MEDIASUBTYPE_RGB24);
           sampleWidth :=
             biWidth (pbFormat (ConnectedMediaType cs (negotiated dw dh cs)));
           sampleHeight :=
             biHeight (pbFormat (ConnectedMediaType cs (negotiated dw dh cs)));
           controlsSet :=
             if have then fst (applyCameraControls settings cs) else [];
           controlErrors :=
             if have then snd (applyCameraControls settings cs) else [];
           mediaControl := State_Paused |}.
Proof.
  unfold initGraph_with, checked_calls. fold (negotiated dw dh cs).
  destruct (selectDevice name path (monikers cs)) as [[m cam]|what];
    cbn [bind fst snd].
  2:{ split; [discriminate|intros (? & ? & ? & _); discriminate]. }
  assert (Hfail : forall hrs,
            Forall (fun hr => FAILED hr = false) hrs ->
            forall hr, In hr hrs -> FAILED hr = true -> False).
  { intros hrs HF hr Hin Hhr. rewrite Forall_forall in HF.
    rewrite (HF hr Hin) in Hhr. discriminate. }
  repeat (step_call;
          [split; [discriminate|];
           intros (m' & cam' & E & HF & _); injection E as <- <-;
           exfalso; eapply (Hfail _ HF); [|eassumption]; cbn; tauto|]).
  destruct (supported (ConnectedMediaType cs (negotiated dw dh cs))) eqn:S;
    cbn [negb].
  2:{ split; [discriminate|].
      intros (m' & cam' & _ & _ & S' & _). discriminate. }
  destruct have.
  - destruct (applyCameraControls settings cs) as [calls errors]. cbn [fst snd].
    split.
    + intros E. injection E as <-. exists m, cam.
      repeat split; auto. repeat constructor; assumption.
    + intros (m' & cam' & E & _ & _ & ->). injection E as <- <-. reflexivity.
  - split.
    + intros E. injection E as <-. exists m, cam.
      repeat split; auto. repeat constructor; assumption.
    + intros (m' & cam' & E & _ & _ & ->). injection E as <- <-. reflexivity.
Qed.

(** X14.  [initGraph] returns exactly when a device was selected, each of
    the ten calls it tests succeeded and the connected media type is RGB24
    video with a [VIDEOINFOHEADER].  The graph it then leaves is paused, its
    grabber delivers every sample through [SampleCB] without buffering, and
    the sample size it records is that of the connected media type, whatever
    size was desired. *)
Theorem initGraph_succeeds_iff name path dw dh settings cs :
  ((exists g, initGraph name path dw dh settings cs = Ok g) <->
   exists m cam,
     selectDevice name path (monikers cs) = Ok (m, cam) /\
     Forall (fun hr => FAILED hr = false)
       (checked_calls cs m (negotiated dw dh cs)) /\
     supported (ConnectedMediaType cs (negotiated dw dh cs)) = true) /\
  (forall g, initGraph name path dw dh settings cs = Ok g ->
     selectDevice name path (monikers cs)
     = Ok (selectedMoniker g, selectedCamera g) /\
     formatSet g = negotiated dw dh cs /\
     sampleWidth g = biWidth (pbFormat (ConnectedMediaType cs (formatSet g))) /\
     sampleHeight g = biHeight (pbFormat (ConnectedMediaType cs (formatSet g))) /\
     subtype (ConnectedMediaType cs (formatSet g)) = MEDIASUBTYPE_RGB24 /\
     mediaControl g = State_Paused /\
     grabberOneShot g = false /\ grabberBufferSamples g = false /\
     grabberCallbackMethod g = 0).
Proof.
  unfold initGraph. split.
  - split.
    + intros [g E]. apply initGraph_with_ok in E
        as (m & cam & E & HF & S & _). eauto.
    + intros (m & cam & E & HF & S). eexists.
      apply initGraph_with_ok. exists m, cam. repeat split; eauto.
  - intros g E. apply initGraph_with_ok in E as (m & cam & E & HF & S & ->).
    cbn. repeat split; auto.
    unfold supported, GUID_eqb in S.
    destruct (GUID_eq_dec (subtype _) MEDIASUBTYPE_RGB24); [assumption|].
    rewrite andb_false_r in S. discriminate.
Qed.

Lemma negotiated_without_stream_config dw dh cs caps hr :
  FAILED hr = true \/ (forall x, In x caps -> eligible dw dh x = false) ->
  negotiated dw dh (with_stream_config hr caps cs) = None.
Proof.
  unfold negotiated. cbn. intros [->|H]; [reflexivity|].
  destruct (FAILED hr); [reflexivity|].
  unfold selectedFormat, negotiate.
  change (fold_left (neg_step dw dh) caps neg_init) with (run dw dh neg_init caps).
  now rewrite NegotiationFacts.run_nothing_eligible.
Qed.

Lemma initGraph_depends_on_negotiated have name path dw dh settings cs cs' :
  monikers cs' = monikers cs ->
  checked_calls cs' = checked_calls cs ->
  ConnectedMediaType cs' = ConnectedMediaType cs ->
  applyCameraControls settings cs' = applyCameraControls settings cs ->
  negotiated dw dh cs' = negotiated dw dh cs ->
  forall g,
    initGraph_with have name path dw dh settings cs = Ok g <->
    initGraph_with have name path dw dh settings cs' = Ok g.
Proof.
  intros Hm Hc Hmt Hcc Hn g. rewrite !initGraph_with_ok.
  now rewrite Hm, Hc, Hmt, Hcc, Hn.
Qed.

(** X15.  A desired size that the device does not offer is not an error, and
    neither is a pin without [IAMStreamConfig]: in both cases no format is
    set, and [initGraph] returns with the same graph as for a device that
    advertises no capability at all. *)
Theorem unmatched_size_is_not_an_error name path dw dh settings cs g :
  FAILED (QueryInterface_IAMStreamConfig cs) = true \/
  (forall x, In x (StreamCaps cs) -> eligible dw dh x = false) ->
  (initGraph name path dw dh settings cs = Ok g <->
   initGraph name path dw dh settings (with_stream_config S_OK [] cs) = Ok g) /\
  (initGraph name path dw dh settings cs = Ok g -> formatSet g = None).
Proof.
  intros H.
  assert (N1 : negotiated dw dh cs = None).
  { replace cs with (with_stream_config (QueryInterface_IAMStreamConfig cs)
                       (StreamCaps cs) cs) by (destruct cs; reflexivity).
    now apply negotiated_without_stream_config. }
  assert (N2 : negotiated dw dh (with_stream_config S_OK [] cs) = None)
    by reflexivity.
  unfold initGraph. split.
  - apply initGraph_depends_on_negotiated; try reflexivity.
    now rewrite N1, N2.
  - intros E. apply initGraph_with_ok in E as (m & cam & _ & _ & _ & ->).
    exact N1.
Qed.

(** X16.  As this file is compiled, the camera control settings have no
    effect: [initGraph] issues no call of [Set] and gives the same result
    for any two settings of exposure, brightness, contrast, saturation,
    sharpness, gamma, white balance, backlight compensation and gain. *)
Theorem camera_settings_are_never_applied name path dw dh cs :
  (forall settings settings',
     initGraph name path dw dh settings cs
     = initGraph name path dw dh settings' cs) /\
  (forall settings g,
     initGraph name path dw dh settings cs = Ok g ->
     controlsSet g = [] /\ controlErrors g = []).
Proof.
  split.
  - intros s s'. reflexivity.
  - intros s g E. unfold initGraph in E.
    apply initGraph_with_ok in E as (m & cam & _ & _ & _ & ->).
    split; reflexivity.
Qed.

(** X17.  Were the camera control block compiled in, it would be best
    effort: exposure is set when [IAMCameraControl] is offered and the eight
    video amplifier properties, in a fixed order, when [IAMVideoProcAmp] is,
    whichever of the calls fail; a failing call only logs its property; the
    automatic flag is used for exposure and white balance alone, when
    configured; and [initGraph] returns in exactly the same cases as without
    the block. *)
Theorem camera_controls_are_best_effort name path dw dh settings cs :
  let calls := fst (applyCameraControls settings cs) in
  let errors := snd (applyCameraControls settings cs) in
  map set_property calls =
    (if SUCCEEDED (QueryInterface_IAMCameraControl cs)
     then [CameraControl_Exposure] else []) ++
    (if SUCCEEDED (QueryInterface_IAMVideoProcAmp cs)
     then procamp_properties else []) /\
  errors =
    map set_property (filter (fun call => FAILED (SetProperty cs call)) calls) /\
  (forall call, In call calls ->
     (set_flags call = Flags_Auto <->
      (set_property call = CameraControl_Exposure /\
       m_cameraExposureAuto settings = true) \/
      (set_property call = VideoProcAmp_WhiteBalance /\
       m_cameraWhitebalanceAuto settings = true))) /\
  ((exists g, initGraph_with true name path dw dh settings cs = Ok g) <->
   (exists g, initGraph_with false name path dw dh settings cs = Ok g)).
Proof.
  cbn zeta. unfold applyCameraControls, set_all, procamp_properties.
  destruct (SUCCEEDED (QueryInterface_IAMCameraControl cs));
    destruct (SUCCEEDED (QueryInterface_IAMVideoProcAmp cs));
    cbn [fst snd].
  all: split; [rewrite map_app; reflexivity|].
  all: split; [rewrite filter_app, map_app; reflexivity|].
  all: split;
    [|split; intros [g E]; apply initGraph_with_ok in E
        as (m & cam & E & HF & S & _); eexists; apply initGraph_with_ok;
      exists m, cam; repeat split; eauto].
  all: intros call Hin; apply in_app_or in Hin as [Hin|Hin]; cbn in Hin;
    repeat (destruct Hin as [<-|Hin]; [cbn|]); try contradiction;
    try (destruct (m_cameraExposureAuto settings));
    try (destruct (m_cameraWhitebalanceAuto settings));
    split; try discriminate; try (intros _; tauto);
    intros [[? ?]|[? ?]]; discriminate.
Qed.

End GraphBuilderFacts.

(* ------------------------------------------------------------------ *)
(** ** Lifecycle *)

Module LifecycleFacts.
Import GraphBuilder Lifecycle.

Section Facts.

Context {TimestampSync Undistortion : Type}
  `{!Collaborators TimestampSync Undistortion}
  `{ComponentBase}.

Implicit Types (d : Driver TimestampSync Undistortion)
  (c : DirectShowFrameGrabber TimestampSync Undistortion).

Lemma set_running_same c : set_running (m_running c) c = c.
Proof. destruct c; reflexivity. Qed.

Lemma with_grabber_same d : with_grabber (grabber d) d = d.
Proof. destruct d; reflexivity. Qed.

(** X18.  [start] is idempotent when the base class sets the running flag:
    a second [start] asks nothing of the media control, registers no
    callback and leaves the component as the first one left it. *)
Theorem start_is_idempotent `{!ComponentBaseFlags} d :
  start (start d) = start d /\
  m_running (grabber (start d)) = true.
Proof.
  assert (R : m_running (grabber (start d)) = true).
  { unfold start. cbn. apply start_sets_running. }
  split; [|exact R].
  unfold start at 1. rewrite R. cbn [negb].
  rewrite start_sets_running. rewrite <- R at 1.
  now rewrite set_running_same, with_grabber_same.
Qed.

(** X19.  Stopping pauses the graph and restarting runs it again without
    touching anything else: after [stop] and [start] the media control is
    running and the component is the one before, running flag set, so that
    the frame counter, the last timestamp, the synchronizer and the
    negotiated size survive the restart.  [stop] itself never stops the
    graph: it leaves a running component's graph paused. *)
Theorem restart_resumes `{!ComponentBaseFlags} d state :
  m_autoGPUUpload (grabber d) = false ->
  m_pMediaControl d = Some state ->
  m_pMediaControl (start (stop d)) = Some State_Running /\
  grabber (start (stop d)) = set_running true (grabber d) /\
  registeredInitCallbacks (start (stop d)) = registeredInitCallbacks d /\
  m_running (grabber (stop d)) = false /\
  (m_running (grabber d) = true -> m_pMediaControl (stop d) = Some State_Paused) /\
  (m_running (grabber d) = false -> m_pMediaControl (stop d) = Some state).
Proof.
  intros Hgpu Hmc. unfold start, stop, startCapturing, ask.
  rewrite Hmc. destruct d as [c mc n]. cbn in *. subst mc.
  rewrite !stop_clears_running, !start_sets_running.
  destruct (m_running c); cbn; rewrite ?Hgpu; cbn;
    rewrite ?start_sets_running; repeat split; try discriminate;
    destruct c; reflexivity.
Qed.

(** X20.  With the upload to the GPU configured, [start] on a paused graph
    defers the run: it registers [startCapturing] with the OpenCL manager,
    leaves the graph paused and already reports the component as running.
    The callback then runs the graph.  A [stop] in between does not cancel
    it: the callback still runs the graph, with the component not running,
    and every frame delivered in that state is dropped and not counted. *)
Theorem deferred_start `{!ComponentBaseFlags} d :
  m_autoGPUUpload (grabber d) = true ->
  m_running (grabber d) = false ->
  m_pMediaControl d = Some State_Paused ->
  (m_pMediaControl (start d) = Some State_Paused /\
   m_running (grabber (start d)) = true /\
   registeredInitCallbacks (start d) = S (registeredInitCallbacks d)) /\
  m_pMediaControl (startCapturing (start d)) = Some State_Running /\
  (let late := startCapturing (stop (start d)) in
   m_pMediaControl late = Some State_Running /\
   m_running (grabber late) = false /\
   forall host Time pSample,
     exists r,
       SampleCB (grabber late) host Time pSample = Some r /\
       returned r = S_OK /\ forwarded r = None /\ pushed r = None /\
       m_nFrames (after r) = m_nFrames (grabber d)).
Proof.
  intros Hgpu Hrun Hmc.
  destruct d as [c mc n]. cbn in Hgpu, Hrun, Hmc. subst mc.
  unfold start, stop, startCapturing, ask, registerInitCallback, with_grabber.
  cbn. rewrite Hrun. cbn. rewrite Hgpu. cbn.
  rewrite !start_sets_running. cbn. rewrite !stop_clears_running.
  repeat split.
  intros host Time pSample.
  set (late := set_running false _).
  assert (Rl : m_running late = false) by reflexivity.
  assert (Nl : m_nFrames late = m_nFrames c) by reflexivity.
  destruct (double_eqb Time (m_lastTime late)) eqn:E.
  - rewrite SampleCB_duplicate by assumption.
    eexists. split; [reflexivity|]. cbn. repeat split.
  - rewrite SampleCB_not_running by assumption.
    eexists. split; [reflexivity|]. cbn. repeat split.
Qed.

(** X21.  With the upload to the GPU switched off, [start] does what the
    earlier variant did, provided the base class sets the running flag. *)
Theorem start_agrees_with_legacy `{!ComponentBaseFlags} d :
  m_autoGPUUpload (grabber d) = false ->
  start d = start_legacy d.
Proof.
  intros Hgpu. destruct d as [c mc n]. cbn in Hgpu.
  unfold start, start_legacy, startCapturing, ask, with_grabber. cbn.
  rewrite Hgpu.
  destruct (m_running c) eqn:R, mc; cbn;
    rewrite ?start_sets_running, ?R; reflexivity.
Qed.

End Facts.

End LifecycleFacts.

(* ------------------------------------------------------------------ *)
(** ** The callback object as a COM object *)

Module ComIdentityFacts.
Import ComIdentity.

(** X22.  Of the interfaces whose identifiers the repository defines, the
    callback object grants [ISampleGrabberCB] alone, and it grants
    [IUnknown]; every other query fails with [E_NOTIMPL], a query without a
    place for the result fails with [E_POINTER], and a failing query stores
    nothing.  [Release] never reports a count of zero. *)
Theorem QueryInterface_grants_the_callback_only :
  (forall riid, In riid interface_ids ->
     (QueryInterface riid true = (S_OK, Some this_as_ISampleGrabberCB) /\
      riid = IID_ISampleGrabberCB) \/
     (QueryInterface riid true = (E_NOTIMPL, None) /\
      riid <> IID_ISampleGrabberCB)) /\
  QueryInterface IID_IUnknown true = (S_OK, Some this_as_IUnknown) /\
  (forall riid, QueryInterface riid false = (E_POINTER, None)) /\
  (forall riid given,
     FAILED (fst (QueryInterface riid given)) = true <->
     snd (QueryInterface riid given) = None) /\
  Release <> 0 /\ FAILED BufferCB = true.
Proof.
  split; [|split; [|split; [|split; [|split]]]].
  - intros riid Hin. cbn in Hin.
    repeat (destruct Hin as [<-|Hin];
            [first [left; split; reflexivity
                   |right; split; [reflexivity|discriminate]]|]).
    contradiction.
  - reflexivity.
  - reflexivity.
  - intros riid given. unfold QueryInterface.
    destruct given; cbn [negb];
      [|split; reflexivity].
    destruct (IID_eqb riid IID_IUnknown);
      [split; discriminate|].
    destruct (IID_eqb riid IID_ISampleGrabberCB);
      [split; discriminate|split; reflexivity].
  - discriminate.
  - reflexivity.
Qed.

End ComIdentityFacts.

(* ------------------------------------------------------------------ *)
(** ** The intrinsics input port *)

Module IntrinsicsPortFacts.
Import IntrinsicsPort.

Lemma eqb_substring_prefix (p : string) : forall s,
  String.eqb (substring 0 (String.length p) s) p = String.prefix p s.
Proof.
  induction p as [|a p IH]; intros s; cbn.
  - destruct s; reflexivity.
  - destruct s as [|b s]; cbn [substring String.length String.eqb String.prefix];
      [reflexivity|].
    rewrite IH. destruct (Ascii.ascii_dec a b) as [->|Hne].
    + now rewrite Ascii.eqb_refl.
    + destruct (Ascii.eqb_spec b a); [congruence|reflexivity].
Qed.

Lemma prefix_app (p : string) : forall s,
  String.prefix p s = true <-> exists rest, s = String.append p rest.
Proof.
  induction p as [|a p IH]; intros s; cbn.
  - split; [intros _; now exists s|intros _; destruct s; reflexivity].
  - destruct s as [|b s].
    + split; [discriminate|intros [rest E]; discriminate].
    + cbn [String.prefix]. destruct (Ascii.ascii_dec a b) as [->|Hne].
      * rewrite IH. split; intros [rest E]; exists rest; congruence.
      * split; [discriminate|intros [rest E]; congruence].
Qed.

Lemma port_loop edges : forall port,
  fold_left
    (fun port it =>
       if isInput it then
         if names_intrinsics (edge_name it) then Some (edge_name it)
         else port
       else port) edges port =
  match find creates_port (rev edges) with
  | Some it => Some (edge_name it)
  | None => port
  end.
Proof.
  induction edges as [|e rest IH]; intros port; cbn [fold_left rev find];
    [reflexivity|].
  rewrite IH.
  assert (Hfind : find creates_port (rev rest ++ [e]) =
                  match find creates_port (rev rest) with
                  | Some it => Some it
                  | None => if creates_port e then Some e else None
                  end).
  { generalize (rev rest). intros l. induction l as [|x l IHl]; cbn.
    - destruct (creates_port e); reflexivity.
    - destruct (creates_port x); [reflexivity|exact IHl]. }
  rewrite Hfind. destruct (find creates_port (rev rest)); [reflexivity|].
  unfold creates_port. destruct (isInput e); cbn; [|reflexivity].
  destruct (names_intrinsics (edge_name e)); reflexivity.
Qed.

(** X23.  The constructor creates the intrinsics input port exactly when
    some input edge has a name that begins with InputIntrinsics (the name
    itself, or the name followed by anything); when several edges do, the
    port carries the name of the last of them in the order of the edge map,
    and output edges never count. *)
Theorem intrinsics_port_by_prefix edges :
  (forall name,
     names_intrinsics name = true <->
     exists rest, name = String.append "InputIntrinsics" rest) /\
  (intrinsicInPort edges = None <->
   forall it, In it edges -> creates_port it = false) /\
  (forall before it rest,
     edges = before ++ it :: rest ->
     creates_port it = true ->
     (forall x, In x rest -> creates_port x = false) ->
     intrinsicInPort edges = Some (edge_name it)).
Proof.
  split; [|split].
  - intros name. unfold names_intrinsics.
    change 15%nat with (String.length "InputIntrinsics").
    rewrite eqb_substring_prefix. apply prefix_app.
  - unfold intrinsicInPort. rewrite port_loop.
    destruct (find creates_port (rev edges)) as [it|] eqn:F.
    + split; [discriminate|]. intros Hno.
      apply find_some in F as [Hin C]. apply in_rev in Hin.
      rewrite (Hno it Hin) in C. discriminate.
    + split; [|reflexivity]. intros _ it Hin.
      apply (find_none _ _ F). now apply in_rev in Hin.
  - intros before it rest -> C Hno. unfold intrinsicInPort.
    rewrite port_loop, rev_app_distr. cbn [rev]. rewrite <- app_assoc.
    cbn [app].
    assert (Hfind : forall l tail,
              (forall x, In x l -> creates_port x = false) ->
              find creates_port (l ++ tail) = find creates_port tail).
    { induction l as [|x l IHl]; intros tail H; cbn; [reflexivity|].
      rewrite (H x (or_introl eq_refl)). apply IHl.
      intros y Hy. apply H. now right. }
    rewrite Hfind.
    + cbn. now rewrite C.
    + intros x Hx. apply Hno. now apply in_rev.
Qed.

End IntrinsicsPortFacts.

(* ------------------------------------------------------------------ *)
(** ** The device loop of the earlier variant *)

Module LegacySelectorFacts.
Import DeviceSelector LegacySelector.





End LegacySelectorFacts.

(* ------------------------------------------------------------------ *)
(** ** From construction to the first frame *)

Module PipelineFacts.
Import FormatNegotiation GraphBuilder GraphBuilderTerms Lifecycle.

Section Pipeline.

Context {TimestampSync Undistortion : Type}
  `{!Collaborators TimestampSync Undistortion}
  `{ComponentBase}.

(** X25.  A component constructed with the default attributes on a system
    where [initGraph] succeeds, and then started, runs the graph and
    forwards the first frame it is given, provided the native time of that
    frame is not -1e10, the initial value of the last timestamp (a frame at
    that time is taken for a duplicate): any such sample with a readable
    buffer that holds three bytes per pixel of the connected media type is
    wrapped at the size of that media type, not at the desired size, stamped
    with the synchronized time without offset, and counted as frame 1. *)
Theorem first_frame_has_connected_size `{!ComponentBaseFlags}
    name path settings cs g syncer u host Time pSample :
  initGraph name path 320 240 settings cs = Ok g ->
  double_eqb Time minus_1e10 = false ->
  FAILED (GetPointer pSample) = false ->
  wrap32 (wrap32 (biWidth (pbFormat (ConnectedMediaType cs (negotiated 320 240 cs)))
                  * biHeight (pbFormat (ConnectedMediaType cs (negotiated 320 240 cs))))
          * 3) <= GetSize pSample ->
  let d := start (initialized
                    (constructed (sampleWidth g) (sampleHeight g) syncer u) g) in
  m_pMediaControl d = Some State_Running /\
  m_running (grabber d) = true /\
  exists r,
    SampleCB (grabber d) host Time pSample = Some r /\
    forwarded r =
      Some (wrap64u (fst (convertNativeToLocal syncer Time)),
            BufferImage
              (biWidth (pbFormat (ConnectedMediaType cs (negotiated 320 240 cs))))
              (biHeight (pbFormat (ConnectedMediaType cs (negotiated 320 240 cs))))
              bgr24 (pBuffer pSample)) /\
    m_nFrames (after r) = 1.
Proof.
  intros E HT HP HS. unfold initGraph in E.
  apply GraphBuilderFacts.initGraph_with_ok in E
    as (m & cam & _ & _ & _ & ->).
  cbn [sampleWidth sampleHeight].
  set (w := biWidth _) in *. set (h := biHeight _) in *.
  unfold start, initialized, startCapturing, ask, with_grabber, constructed.
  cbn. rewrite start_sets_running.
  split; [reflexivity|]. split; [reflexivity|].
  eexists. split.
  - apply SampleCB_forwarded; cbn.
    + exact HT.
    + reflexivity.
    + reflexivity.
    + unfold sample_ok, required_size. cbn. rewrite HP.
      apply Z.ltb_ge in HS. now rewrite HS.
  - cbn. split; [|reflexivity].
    unfold stamped. cbn.
    destruct (convertNativeToLocal syncer Time) as [ut sy]. cbn.
    now rewrite Z.add_0_r.
Qed.

End Pipeline.

End PipelineFacts.

(* ------------------------------------------------------------------ *)
(** ** The further properties on the concrete scenario *)

Module ScenarioFacts.
Import DeviceSelector FormatNegotiation NegotiationLoop GraphBuilder
  GraphBuilderTerms Lifecycle Concrete Scenario.

Lemma base_flags : @ComponentBaseFlags base.
Proof. split; reflexivity. Qed.

(** Four frames through a camera with divisor 2. *)
Lemma deliver_keeps_configuration_witness :
  (m_divisor (camera 2 true) <> 0 /\ m_divisor (camera 2 true) <> -1) /\
  (forall ds c',
     deliver (camera 2 true) four_frames = Some (ds, c') ->
     same_configuration (camera 2 true) c' /\
     Forall (fun d => same_configuration (camera 2 true) (after d) /\
                      returned d = S_OK) ds) /\
  exists ds c',
    deliver (camera 2 true) four_frames = Some (ds, c') /\
    List.length ds = List.length four_frames.
Proof.
  assert (h1 : m_divisor (camera 2 true) <> 0) by (cbn; lia).
  assert (h2 : m_divisor (camera 2 true) <> -1) by (cbn; lia).
  split; [exact (conj h1 h2)|].
  split.
  - exact (proj1 (deliver_keeps_configuration four_frames (camera 2 true))).
  - exact (proj2 (deliver_keeps_configuration four_frames (camera 2 true)) h1 h2).
Defined.

(** Three frames of which the second repeats the first. *)
Lemma counter_counts_fresh_frames_witness :
  (m_running (camera 1 true) = true /\
   0 < m_divisor (camera 1 true) /\
   0 <= m_nFrames (camera 1 true) /\
   m_nFrames (camera 1 true) + Z.of_nat (List.length repeated_frames)
   <= INT_MAX) /\
  exists ds c',
    deliver (camera 1 true) repeated_frames = Some (ds, c') /\
    List.length ds = List.length repeated_frames /\
    m_nFrames c' =
    m_nFrames (camera 1 true)
    + Z.of_nat (fresh_frames (m_lastTime (camera 1 true))
                  (map inv_Time repeated_frames)).
Proof.
  assert (h1 : m_running (camera 1 true) = true) by reflexivity.
  assert (h2 : 0 < m_divisor (camera 1 true)) by (cbn; lia).
  assert (h3 : 0 <= m_nFrames (camera 1 true)) by (cbn; lia).
  assert (h4 : m_nFrames (camera 1 true)
               + Z.of_nat (List.length repeated_frames) <= INT_MAX)
    by (vm_compute; discriminate).
  split; [exact (conj h1 (conj h2 (conj h3 h4)))|].
  exact (counter_counts_fresh_frames repeated_frames (camera 1 true)
           h1 h2 h3 h4).
Defined.

(** Four good frames with divisor 2: two are forwarded. *)
Lemma forwarded_frames_are_n_over_divisor_witness :
  (m_running (camera 2 true) = true /\
   m_nFrames (camera 2 true) = 0 /\
   0 < m_divisor (camera 2 true) /\
   Z.of_nat (List.length four_frames) <= INT_MAX /\
   increasing_from (m_lastTime (camera 2 true))
     (map inv_Time four_frames) = true /\
   Forall (fun i => sample_ok (camera 2 true) (inv_sample i) = true)
     four_frames) /\
  exists ds c',
    deliver (camera 2 true) four_frames = Some (ds, c') /\
    Z.of_nat (List.length (filter is_forwarded ds)) =
    Z.of_nat (List.length four_frames) / m_divisor (camera 2 true).
Proof.
  assert (h1 : m_running (camera 2 true) = true) by reflexivity.
  assert (h2 : m_nFrames (camera 2 true) = 0) by reflexivity.
  assert (h3 : 0 < m_divisor (camera 2 true)) by (cbn; lia).
  assert (h4 : Z.of_nat (List.length four_frames) <= INT_MAX)
    by (vm_compute; discriminate).
  assert (h5 : increasing_from (m_lastTime (camera 2 true))
                 (map inv_Time four_frames) = true)
    by (vm_compute; reflexivity).
  assert (h6 : Forall (fun i => sample_ok (camera 2 true) (inv_sample i) = true)
                 four_frames)
    by (repeat constructor).
  split; [exact (conj h1 (conj h2 (conj h3 (conj h4 (conj h5 h6)))))|].
  exact (forwarded_frames_are_n_over_divisor (camera 2 true) four_frames
           h1 h2 h3 h4 h5 h6).
Defined.

(** The synchronizer after four frames with divisor 2. *)
Lemma synchronizer_sees_forwarded_frames_only_witness :
  deliver (camera 2 true) four_frames
  = Some (fst (outcome (camera 2 true) four_frames),
          snd (outcome (camera 2 true) four_frames)) /\
  m_syncer (snd (outcome (camera 2 true) four_frames)) =
  fed (m_syncer (camera 2 true))
    (forwarded_times four_frames (fst (outcome (camera 2 true) four_frames))).
Proof.
  assert (h1 : deliver (camera 2 true) four_frames
               = Some (fst (outcome (camera 2 true) four_frames),
                       snd (outcome (camera 2 true) four_frames)))
    by (vm_compute; reflexivity).
  split; [exact h1|].
  exact (synchronizer_sees_forwarded_frames_only four_frames (camera 2 true)
           _ _ h1).
Defined.

(** A frame through the camera with a 5 ms offset. *)
Lemma forwarded_frame_is_stamped_with_offset_witness :
  (SampleCB offset_camera all_connected (double_of_Z 1) full_sample
   = Some (dispatched offset_camera all_connected (double_of_Z 1) full_sample) /\
   forwarded (dispatched offset_camera all_connected (double_of_Z 1) full_sample)
   = Some (5000000, BufferImage 640 480 bgr24 4096) /\
   -2147 <= m_timeOffset offset_camera <= 2147) /\
  @BufferImage unit 640 480 bgr24 4096 =
    BufferImage (m_sampleWidth offset_camera) (m_sampleHeight offset_camera)
      bgr24 (pBuffer full_sample) /\
  5000000 =
    (fst (convertNativeToLocal (m_syncer offset_camera) (double_of_Z 1))
     + 1000000 * m_timeOffset offset_camera) mod 2 ^ 64 /\
  pushed (dispatched offset_camera all_connected (double_of_Z 1) full_sample) =
    Some (handleFrame
            (after (dispatched offset_camera all_connected (double_of_Z 1)
                      full_sample))
            all_connected 5000000 (BufferImage 640 480 bgr24 4096)).
Proof.
  assert (h1 : SampleCB offset_camera all_connected (double_of_Z 1) full_sample
               = Some (dispatched offset_camera all_connected (double_of_Z 1)
                         full_sample))
    by (vm_compute; reflexivity).
  assert (h2 : forwarded (dispatched offset_camera all_connected
                            (double_of_Z 1) full_sample)
               = Some (5000000, BufferImage 640 480 bgr24 4096))
    by (vm_compute; reflexivity).
  assert (h3 : -2147 <= m_timeOffset offset_camera <= 2147) by (cbn; lia).
  split; [exact (conj h1 (conj h2 h3))|].
  exact (forwarded_frame_is_stamped_with_offset offset_camera all_connected
           (double_of_Z 1) full_sample _ _ _ h1 h2 h3).
Defined.

(** A 640x480 frame with a desired size of 320x240. *)
Lemma luminance_follows_resize_policy_witness :
  outPort_isConnected all_connected = true /\
  exists grey,
    sentOut (handleFrame (camera 1 true) all_connected 0
               (BufferImage 640 480 bgr24 4096))
    = Some (0, grey) /\
    resizes grey =
      (if ((0 <? m_desiredWidth (camera 1 true)) &&
           (0 <? m_desiredHeight (camera 1 true))) &&
          ((m_desiredWidth (camera 1 true) <? 640) ||
           (m_desiredHeight (camera 1 true) <? 480))
       then 1%nat else 0%nat).
Proof.
  assert (h1 : outPort_isConnected all_connected = true) by reflexivity.
  split; [exact h1|].
  exact (luminance_follows_resize_policy (camera 1 true) all_connected 0
           640 480 4096 h1).
Defined.

(** What the first frame pushes with every port connected. *)
Lemma pushed_images_never_alias_the_buffer_witness :
  (SampleCB (camera 1 true) all_connected (double_of_Z 1) full_sample
   = Some (dispatched (camera 1 true) all_connected (double_of_Z 1) full_sample) /\
   pushed (dispatched (camera 1 true) all_connected (double_of_Z 1) full_sample)
   = Some (sent_of (dispatched (camera 1 true) all_connected (double_of_Z 1)
                      full_sample))) /\
  Forall (fun i => allocated i = true)
    (images (sent_of (dispatched (camera 1 true) all_connected (double_of_Z 1)
                        full_sample))) /\
  exists t img,
    forwarded (dispatched (camera 1 true) all_connected (double_of_Z 1)
                 full_sample) = Some (t, img) /\
    Forall (eq t)
      (stamps (sent_of (dispatched (camera 1 true) all_connected
                          (double_of_Z 1) full_sample))).
Proof.
  assert (h1 : SampleCB (camera 1 true) all_connected (double_of_Z 1) full_sample
               = Some (dispatched (camera 1 true) all_connected (double_of_Z 1)
                         full_sample))
    by (vm_compute; reflexivity).
  assert (h2 : pushed (dispatched (camera 1 true) all_connected (double_of_Z 1)
                         full_sample)
               = Some (sent_of (dispatched (camera 1 true) all_connected
                                  (double_of_Z 1) full_sample)))
    by (vm_compute; reflexivity).
  split; [exact (conj h1 h2)|].
  exact (pushed_images_never_alias_the_buffer (camera 1 true) all_connected
           (double_of_Z 1) full_sample _ _ h1 h2).
Defined.

(** Four frames after a push of intrinsics. *)
Lemma intrinsics_update_takes_effect_witness :
  deliver (newIntrinsicsPush tt (camera 1 true)) four_frames
  = Some (fst (outcome (newIntrinsicsPush tt (camera 1 true)) four_frames),
          snd (outcome (newIntrinsicsPush tt (camera 1 true)) four_frames)) /\
  m_undistorter (snd (outcome (newIntrinsicsPush tt (camera 1 true)) four_frames))
  = tt /\
  Forall (fun i => Forall (eq tt) (undistorters i))
    (all_pushed (fst (outcome (newIntrinsicsPush tt (camera 1 true)) four_frames))).
Proof.
  assert (h1 : deliver (newIntrinsicsPush tt (camera 1 true)) four_frames
               = Some (fst (outcome (newIntrinsicsPush tt (camera 1 true))
                              four_frames),
                       snd (outcome (newIntrinsicsPush tt (camera 1 true))
                              four_frames)))
    by (vm_compute; reflexivity).
  split; [exact h1|].
  exact (intrinsics_update_takes_effect tt (camera 1 true) four_frames _ _ h1).
Defined.

(** Two pushes of intrinsics, then four frames, then a pull at time 7. *)
Lemma getIntrinsic_reports_latest_push_witness :
  deliver (newIntrinsicsPush tt (newIntrinsicsPush tt (camera 1 true)))
    four_frames
  = Some (fst (outcome (newIntrinsicsPush tt (newIntrinsicsPush tt (camera 1 true)))
                 four_frames),
          snd (outcome (newIntrinsicsPush tt (newIntrinsicsPush tt (camera 1 true)))
                 four_frames)) /\
  getIntrinsic (fun _ : unit => 3)
    (snd (outcome (newIntrinsicsPush tt (newIntrinsicsPush tt (camera 1 true)))
            four_frames)) 7
  = (7, 3).
Proof.
  assert (h1 : deliver (newIntrinsicsPush tt (newIntrinsicsPush tt (camera 1 true)))
                 four_frames
               = Some (fst (outcome (newIntrinsicsPush tt
                                       (newIntrinsicsPush tt (camera 1 true)))
                              four_frames),
                       snd (outcome (newIntrinsicsPush tt
                                       (newIntrinsicsPush tt (camera 1 true)))
                              four_frames)))
    by (vm_compute; reflexivity).
  split; [exact h1|].
  exact (getIntrinsic_reports_latest_push (fun _ : unit => 3) tt tt
           (camera 1 true) four_frames _ _ 7 h1).
Defined.

(** Two YUY2 capabilities of the desired size, the slower one first. *)
Lemma fastest_format_wins_without_RGB24_witness :
  (forall x, In x [yuy2_15fps; yuy2_30fps] -> eligible 640 480 x = true ->
     subtype x <> MEDIASUBTYPE_RGB24) /\
  match selectedFormat 640 480 [yuy2_15fps; yuy2_30fps] with
  | Some s =>
    In s [yuy2_15fps; yuy2_30fps] /\ eligible 640 480 s = true /\
    forall x, In x [yuy2_15fps; yuy2_30fps] -> eligible 640 480 x = true ->
      float_ltb (fps_of (pbFormat s)) (fps_of (pbFormat x)) = false
  | None =>
    forall x, In x [yuy2_15fps; yuy2_30fps] -> eligible 640 480 x = true ->
      float_ltb (S754_zero false) (fps_of (pbFormat x)) = false
  end.
Proof.
  assert (h1 : forall x, In x [yuy2_15fps; yuy2_30fps] ->
                 eligible 640 480 x = true ->
                 subtype x <> MEDIASUBTYPE_RGB24).
  { intros x [<-|[<-|[]]] _; discriminate. }
  split; [exact h1|].
  exact (NegotiationFacts.fastest_format_wins_without_RGB24 640 480
           [yuy2_15fps; yuy2_30fps] h1).
Defined.

(** The webcam offers 640x480 only; 320x240 is desired. *)
Lemma unmatched_size_is_not_an_error_witness :
  (FAILED (QueryInterface_IAMStreamConfig webcam) = true \/
   (forall x, In x (StreamCaps webcam) -> eligible 320 240 x = false)) /\
  (initGraph EmptyString EmptyString 320 240 default_settings webcam
   = Ok webcam_graph <->
   initGraph EmptyString EmptyString 320 240 default_settings
     (with_stream_config S_OK [] webcam) = Ok webcam_graph) /\
  (initGraph EmptyString EmptyString 320 240 default_settings webcam
   = Ok webcam_graph -> formatSet webcam_graph = None).
Proof.
  assert (h1 : FAILED (QueryInterface_IAMStreamConfig webcam) = true \/
               (forall x, In x (StreamCaps webcam) ->
                  eligible 320 240 x = false)).
  { right. intros x [<-|[<-|[]]]; reflexivity. }
  split; [exact h1|].
  exact (GraphBuilderFacts.unmatched_size_is_not_an_error
           EmptyString EmptyString 320 240 default_settings webcam
           webcam_graph h1).
Defined.

(** The driver after construction, started twice. *)
Lemma start_is_idempotent_witness :
  @ComponentBaseFlags base /\
  @start unit unit base (@start unit unit base driver)
  = @start unit unit base driver /\
  m_running (grabber (@start unit unit base driver)) = true.
Proof.
  split; [exact base_flags|].
  exact (@LifecycleFacts.start_is_idempotent unit unit base base_flags driver).
Defined.

(** The driver after construction, started, stopped and started again. *)
Lemma restart_resumes_witness :
  (@ComponentBaseFlags base /\
   m_autoGPUUpload (grabber driver) = false /\
   m_pMediaControl driver = Some State_Paused) /\
  m_pMediaControl (@start unit unit base (@stop unit unit base driver))
  = Some State_Running /\
  grabber (@start unit unit base (@stop unit unit base driver))
  = set_running true (grabber driver) /\
  registeredInitCallbacks (@start unit unit base (@stop unit unit base driver))
  = registeredInitCallbacks driver /\
  m_running (grabber (@stop unit unit base driver)) = false /\
  (m_running (grabber driver) = true ->
   m_pMediaControl (@stop unit unit base driver) = Some State_Paused) /\
  (m_running (grabber driver) = false ->
   m_pMediaControl (@stop unit unit base driver) = Some State_Paused).
Proof.
  assert (h1 : m_autoGPUUpload (grabber driver) = false) by reflexivity.
  assert (h2 : m_pMediaControl driver = Some State_Paused) by reflexivity.
  split; [exact (conj base_flags (conj h1 h2))|].
  exact (@LifecycleFacts.restart_resumes unit unit base base_flags driver
           State_Paused h1 h2).
Defined.

(** The GPU driver: started, stopped, and the callback arriving late. *)
Lemma deferred_start_witness :
  (@ComponentBaseFlags base /\
   m_autoGPUUpload (grabber gpu_driver) = true /\
   m_running (grabber gpu_driver) = false /\
   m_pMediaControl gpu_driver = Some State_Paused) /\
  (m_pMediaControl (@start unit unit base gpu_driver) = Some State_Paused /\
   m_running (grabber (@start unit unit base gpu_driver)) = true /\
   registeredInitCallbacks (@start unit unit base gpu_driver)
   = S (registeredInitCallbacks gpu_driver)) /\
  m_pMediaControl (startCapturing (@start unit unit base gpu_driver))
  = Some State_Running /\
  (let late := startCapturing
                 (@stop unit unit base (@start unit unit base gpu_driver)) in
   m_pMediaControl late = Some State_Running /\
   m_running (grabber late) = false /\
   forall host Time pSample,
     exists r,
       SampleCB (grabber late) host Time pSample = Some r /\
       returned r = S_OK /\ forwarded r = None /\ pushed r = None /\
       m_nFrames (after r) = m_nFrames (grabber gpu_driver)).
Proof.
  assert (h1 : m_autoGPUUpload (grabber gpu_driver) = true) by reflexivity.
  assert (h2 : m_running (grabber gpu_driver) = false) by reflexivity.
  assert (h3 : m_pMediaControl gpu_driver = Some State_Paused) by reflexivity.
  split; [exact (conj base_flags (conj h1 (conj h2 h3)))|].
  exact (@LifecycleFacts.deferred_start unit unit concrete base base_flags
           gpu_driver h1 h2 h3).
Defined.

(** The driver after construction under both variants of [start]. *)
Lemma start_agrees_with_legacy_witness :
  (@ComponentBaseFlags base /\ m_autoGPUUpload (grabber driver) = false) /\
  @start unit unit base driver = @start_legacy unit unit base driver.
Proof.
  assert (h1 : m_autoGPUUpload (grabber driver) = false) by reflexivity.
  split; [exact (conj base_flags h1)|].
  exact (@LifecycleFacts.start_agrees_with_legacy unit unit base base_flags
           driver h1).
Defined.

(** The webcam, constructed with a desired size of 320x240, started, and
    its first full 640x480 frame. *)
Lemma first_frame_has_connected_size_witness :
  (@ComponentBaseFlags base /\
   initGraph EmptyString EmptyString 320 240 default_settings webcam
   = Ok webcam_graph /\
   double_eqb (double_of_Z 1) minus_1e10 = false /\
   FAILED (GetPointer full_sample) = false /\
   wrap32 (wrap32 (biWidth (pbFormat (ConnectedMediaType webcam
                                        (negotiated 320 240 webcam)))
                   * biHeight (pbFormat (ConnectedMediaType webcam
                                           (negotiated 320 240 webcam))))
           * 3) <= GetSize full_sample) /\
  let d := @start unit unit base
             (initialized
                (constructed (sampleWidth webcam_graph)
                   (sampleHeight webcam_graph) tt tt) webcam_graph) in
  m_pMediaControl d = Some State_Running /\
  m_running (grabber d) = true /\
  exists r,
    SampleCB (grabber d) all_connected (double_of_Z 1) full_sample = Some r /\
    forwarded r =
      Some (wrap64u (fst (convertNativeToLocal tt (double_of_Z 1))),
            BufferImage
              (biWidth (pbFormat (ConnectedMediaType webcam
                                    (negotiated 320 240 webcam))))
              (biHeight (pbFormat (ConnectedMediaType webcam
                                     (negotiated 320 240 webcam))))
              bgr24 (pBuffer full_sample)) /\
    m_nFrames (after r) = 1.
Proof.
  assert (h1 : initGraph EmptyString EmptyString 320 240 default_settings webcam
               = Ok webcam_graph)
    by (vm_compute; reflexivity).
  assert (h2 : double_eqb (double_of_Z 1) minus_1e10 = false)
    by (vm_compute; reflexivity).
  assert (h3 : FAILED (GetPointer full_sample) = false) by reflexivity.
  assert (h4 : wrap32 (wrap32 (biWidth (pbFormat (ConnectedMediaType webcam
                                                    (negotiated 320 240 webcam)))
                               * biHeight (pbFormat (ConnectedMediaType webcam
                                                       (negotiated 320 240 webcam))))
                       * 3) <= GetSize full_sample)
    by (vm_compute; discriminate).
  split; [exact (conj base_flags (conj h1 (conj h2 (conj h3 h4))))|].
  exact (@PipelineFacts.first_frame_has_connected_size unit unit concrete base
           base_flags EmptyString EmptyString default_settings webcam
           webcam_graph tt tt all_connected (double_of_Z 1) full_sample
           h1 h2 h3 h4).
Defined.

End ScenarioFacts.
